(** * cocobase_client: the record wrapper and the API client

    A shallow embedding of [cocobase_client/record.py], [client.py] and
    [types.py].  Python objects that reach the library (JSON documents,
    identifiers, field values) are values of the inductive type [value];
    a Python call that may raise is a function into [result]; the client's
    operations, which talk to the remote service, thread the list of the
    requests issued so far. *)

From Stdlib Require Import ZArith String Ascii List Bool Lia.
From Stdlib Require Import SpecFloat DecimalString.
From Stdlib Require DecimalPos.
From stdpp Require Import base option gmap strings list.
Import ListNotations.

Local Open Scope string_scope.
Local Open Scope Z_scope.

(** ** Exceptions and results *)

(** Exceptions raised inside the interpreter's builtins ([int], [dict]
    methods, [json()], ...).  Their message text is not modelled. *)
Inductive builtin_exn : Type :=
  | BTypeError
  | BValueError
  | BOverflowError
  | BAttributeError
  | BJSONDecodeError.

Inductive exn : Type :=
  | CocobaseError (msg : string)   (* raised by client.py *)
  | ValueError (msg : string)      (* raised by [__request__] *)
  | TypeError (msg : string)       (* raised by the strict typed getters *)
  | KeyError (key : string)        (* subscript of a dict on an absent key *)
  | Builtin (e : builtin_exn).

Inductive result (A : Type) : Type :=
  | Ok (a : A)
  | Raise (e : exn).
Arguments Ok {A} a.
Arguments Raise {A} e.

#[global] Instance result_ret : MRet result := fun _ a => Ok a.
#[global] Instance result_bind : MBind result := fun _ _ k m =>
  match m with
  | Ok a => k a
  | Raise e => Raise e
  end.

(** [try: body except Exception: handler].  Every exception of the model
    derives from [Exception]. *)
Definition try_except {A} (body : result A) (handler : exn -> result A) : result A :=
  match body with
  | Ok a => Ok a
  | Raise e => handler e
  end.

Definition exn_message (e : exn) : option string :=
  match e with
  | CocobaseError msg | ValueError msg | TypeError msg => Some msg
  | KeyError _ | Builtin _ => None
  end.

(** ** Python values *)

(** JSON-compatible Python objects.  A [str] is the list of its characters,
    each an ASCII code point (a code below 128); [int] is unbounded, [float]
    is an IEEE double given by sign, mantissa and exponent, and a [dict] has
    string keys. *)
#[warnings="-register-all"] Inductive value : Type :=
  | VNone
  | VBool (b : bool)
  | VInt (n : Z)
  | VFloat (f : spec_float)
  | VStr (s : string)
  | VList (l : list value)
  | VDict (d : gmap string value).

Definition is_None (v : value) : bool :=
  match v with VNone => true | _ => false end.

(** [isinstance(v, dict)] and [isinstance(v, str)]. *)
Definition is_dict (v : value) : bool :=
  match v with VDict _ => true | _ => false end.
Definition is_str (v : value) : bool :=
  match v with VStr _ => true | _ => false end.

(** *** String builtins *)

Definition code (c : ascii) : Z := Z.of_N (N_of_ascii c).

(** The ASCII characters removed by [str.strip()]: tab, LF, VT, FF, CR,
    the four separators FS, GS, RS, US, and space.  The interpreter also
    removes the blanks beyond ASCII (NEL, the no-break space, ...): the
    builtins of this section are the interpreter's on ASCII text, see
    [plain_text] below. *)
Definition strip_space (c : ascii) : bool :=
  ((9 <=? code c) && (code c <=? 13)) || ((28 <=? code c) && (code c <=? 32)).

(** Characters skipped by [int()] around the digits of an ASCII string. *)
Definition int_space (c : ascii) : bool :=
  ((9 <=? code c) && (code c <=? 13)) || (code c =? 32).

Fixpoint lskip (sp : ascii -> bool) (cs : list ascii) : list ascii :=
  match cs with
  | c :: cs' => if sp c then lskip sp cs' else cs
  | [] => []
  end.

Definition rskip (sp : ascii -> bool) (cs : list ascii) : list ascii :=
  rev (lskip sp (rev cs)).

Definition py_strip (s : string) : string :=
  string_of_list_ascii (rskip strip_space (lskip strip_space (list_ascii_of_string s))).

Definition lower_ascii (c : ascii) : ascii :=
  if (65 <=? code c) && (code c <=? 90)
  then ascii_of_N (N_of_ascii c + 32)
  else c.

Definition py_lower (s : string) : string :=
  string_of_list_ascii (map lower_ascii (list_ascii_of_string s)).

Definition py_startswith (s prefix : string) : bool :=
  String.prefix prefix s.

(** [needle in hay] on strings. *)
Fixpoint py_contains (needle hay : string) : bool :=
  String.prefix needle hay ||
  match hay with
  | EmptyString => false
  | String _ hay' => py_contains needle hay'
  end.

(** *** [int(...)] *)

Definition digit_value (c : ascii) : option Z :=
  if (48 <=? code c) && (code c <=? 57) then Some (code c - 48) else None.

(** Digits of a decimal literal, single underscores allowed between two
    digits; [acc] is the number read so far and the first character is
    known to follow a digit.  Returns the number and the unread rest. *)
Fixpoint int_digits (acc : Z) (cs : list ascii) : option (Z * list ascii) :=
  match cs with
  | c :: cs' =>
      match digit_value c with
      | Some d => int_digits (10 * acc + d) cs'
      | None =>
          if Ascii.eqb c "_"%char then
            match cs' with
            | c' :: cs'' =>
                match digit_value c' with
                | Some d => int_digits (10 * acc + d) cs''
                | None => None
                end
            | [] => None
            end
          else Some (acc, cs)
      end
  | [] => Some (acc, [])
  end.

(** [int(s)] for a string, base 10: optional blanks, an optional sign, at
    least one digit, optional blanks.  Digits and blanks beyond ASCII are
    not read, and the interpreter's refusal of a literal of more than
    [max_str_digits] digits is left out: the function is the interpreter's
    on the strings of [plain_text]. *)
Definition int_of_string (s : string) : option Z :=
  let cs := lskip int_space (list_ascii_of_string s) in
  let '(neg, cs) :=
    match cs with
    | c :: cs' =>
        if Ascii.eqb c "-"%char then (true, cs')
        else if Ascii.eqb c "+"%char then (false, cs')
        else (false, cs)
    | [] => (false, cs)
    end in
  match cs with
  | c :: cs' =>
      match digit_value c with
      | Some d =>
          match int_digits d cs' with
          | Some (n, rest) =>
              match lskip int_space rest with
              | [] => Some (if neg then - n else n)
              | _ :: _ => None
              end
          | None => None
          end
      | None => None
      end
  | [] => None
  end.

(** [int(x)] for a float: truncation toward zero. *)
Definition float_trunc (f : spec_float) : result Z :=
  match f with
  | S754_zero _ => Ok 0
  | S754_infinity _ => Raise (Builtin BOverflowError)
  | S754_nan => Raise (Builtin BValueError)
  | S754_finite neg m e =>
      let a := Z.shiftl (Z.pos m) e in
      Ok (if neg then - a else a)
  end.

Definition py_int (v : value) : result Z :=
  match v with
  | VBool b => Ok (if b then 1 else 0)
  | VInt n => Ok n
  | VFloat f => float_trunc f
  | VStr s =>
      match int_of_string s with
      | Some n => Ok n
      | None => Raise (Builtin BValueError)
      end
  | VNone | VList _ | VDict _ => Raise (Builtin BTypeError)
  end.

(** [bool(n)] for an int. *)
Definition py_bool_of_int (n : Z) : bool := negb (n =? 0).

(** The decimal text of an integer. *)
Definition str_of_int (n : Z) : string := NilZero.string_of_int (Z.to_int n).

(** *** Where the builtins above are the interpreter's *)

(** [sys.get_int_max_str_digits()] as the interpreter sets it by default:
    [int(s)] raises [ValueError] on more digits, and so does [str(n)] when
    the text of [n] would have more. *)
Definition max_str_digits : Z := 4300.

Definition is_ascii (s : string) : bool :=
  forallb (fun c => code c <? 128) (list_ascii_of_string s).

(** The strings on which [py_strip], [py_lower] and [int_of_string] are
    [str.strip], [str.lower] and [int]: ASCII text, too short to hold more
    than [max_str_digits] digits. *)
Definition plain_text (s : string) : bool :=
  is_ascii s && (Z.of_nat (String.length s) <=? max_str_digits).

(** The integers that [str(...)] and an f-string print. *)
Definition printable_int (n : Z) : bool := Z.abs n <? 10 ^ max_str_digits.

(** The values on which [str(...)] is known to succeed: [None], a
    boolean, a float, a string, and an integer within the digit limit.  A
    list or a dict is left out: its text is built from the texts of its
    items, to any depth. *)
Definition text_convertible (v : value) : bool :=
  match v with
  | VNone | VBool _ | VFloat _ | VStr _ => true
  | VInt n => printable_int n
  | VList _ | VDict _ => false
  end.

Section Model.

(** ** What the package takes from outside *)

(** [repr] of floats and containers (the interpreter's shortest float
    representation and its rendering of nested objects). *)
Variable repr : value -> string.

(** The standard library's [datetime] and [datetime.fromtimestamp]. *)
Variable datetime : Type.
Variable fromtimestamp : value -> result datetime.

(** [cocobase_client.config.BASEURL]. *)
Variable BASEURL : string.

(** [cocobase_client.query.QueryBuilder] and its [build()] method. *)
Variable QueryBuilder : Type.
Variable build : QueryBuilder -> string.

(** ** [str(...)] and f-string interpolation *)

(** [str(v)], and [v] interpolated in an f-string.  The conversion is
    written as the interpreter performs it on the values of
    [text_convertible]; outside them (an integer beyond [max_str_digits]
    digits, alone or inside a list or a dict) the interpreter raises
    [ValueError], which this definition leaves out. *)
Definition py_str (v : value) : result string :=
  match v with
  | VStr s => Ok s
  | VNone => Ok "None"
  | VBool b => Ok (if b then "True" else "False")
  | VInt n => Ok (str_of_int n)
  | VFloat _ | VList _ | VDict _ => Ok (repr v)
  end.

(** ** record.py *)

Record PyRecord : Type := mkRecord {
  r_data : value;
  r_id : value;
  r_collectionId : value;
  r_createdAt : datetime;
  r_collection : value
}.

(** [obj.get(key, dflt)]: only a dict has the method. *)
Definition dict_get (obj : value) (key : string) (dflt : value) : result value :=
  match obj with
  | VDict d => Ok (default dflt (d !! key))
  | _ => Raise (Builtin BAttributeError)
  end.

(** [obj[key]] with a string key. *)
Definition subscript (obj : value) (key : string) : result value :=
  match obj with
  | VDict d =>
      match d !! key with
      | Some v => Ok v
      | None => Raise (KeyError key)
      end
  | _ => Raise (Builtin BTypeError)
  end.

(** [Record.__init__] *)
Definition Record_init (blob : value) : result PyRecord :=
  d ← dict_get blob "data" (VDict ∅);
  i ← dict_get blob "id" (VStr "");
  c ← dict_get blob "collection_id" (VStr "");
  ts ← dict_get blob "created_at" (VInt 0);
  t ← fromtimestamp ts;
  col ← dict_get blob "collection" (VDict ∅);
  Ok (mkRecord d i c t col).

(** [Record.__getitem__] *)
Definition Record_getitem (self : PyRecord) (key : string) : result value :=
  subscript (r_data self) key.

(** [Record.__setitem__]: the record after the assignment. *)
Definition Record_setitem (self : PyRecord) (key : string) (v : value) : result PyRecord :=
  match r_data self with
  | VDict d =>
      Ok (mkRecord (VDict (<[key := v]> d)) (r_id self) (r_collectionId self)
            (r_createdAt self) (r_collection self))
  | _ => Raise (Builtin BTypeError)
  end.

(** [Record.__delitem__]: the record after the deletion. *)
Definition Record_delitem (self : PyRecord) (key : string) : result PyRecord :=
  match r_data self with
  | VDict d =>
      match d !! key with
      | Some _ =>
          Ok (mkRecord (VDict (delete key d)) (r_id self) (r_collectionId self)
                (r_createdAt self) (r_collection self))
      | None => Raise (KeyError key)
      end
  | _ => Raise (Builtin BTypeError)
  end.

(** [Record.get] *)
Definition Record_get (self : PyRecord) (key : string) (dflt : value) : result value :=
  dict_get (r_data self) key dflt.

(** The handler shared by the typed getters:
    [if raise_error: raise TypeError(f"Value for '{key}' is not <what>: {value}")]
    then [return None]. *)
Definition conversion_failed {A} (key what : string) (v : value) (raise_error : bool)
  : result (option A) :=
  if raise_error then
    s ← py_str v;
    Raise (TypeError ("Value for '" ++ key ++ "' is not " ++ what ++ ": " ++ s))
  else Ok None.

(** [Record.get_string] *)
Definition Record_get_string (self : PyRecord) (key : string) (raise_error : bool)
  : result (option string) :=
  v ← dict_get (r_data self) key VNone;
  try_except
    (if is_None v then Ok None else s ← py_str v; Ok (Some s))
    (fun _ => conversion_failed key "string-convertible" v raise_error).

(** [Record.get_int] *)
Definition Record_get_int (self : PyRecord) (key : string) (raise_error : bool)
  : result (option Z) :=
  v ← dict_get (r_data self) key VNone;
  if is_None v then Ok None
  else
    try_except
      (n ← py_int v; Ok (Some n))
      (fun _ => conversion_failed key "int-convertible" v raise_error).

Definition true_words : list string := ["true"; "1"; "yes"].
Definition false_words : list string := ["false"; "0"; "no"].

(** [val in (w1, w2, w3)] *)
Definition word_in (val : string) (words : list string) : bool :=
  existsb (String.eqb val) words.

(** [Record.get_bool] *)
Definition Record_get_bool (self : PyRecord) (key : string) (raise_error : bool)
  : result (option bool) :=
  v ← dict_get (r_data self) key VNone;
  if is_None v then Ok None
  else
    try_except
      (match v with
       | VBool b => Ok (Some b)
       | _ =>
           let matched :=
             match v with
             | VStr s =>
                 let val := py_lower (py_strip s) in
                 if word_in val true_words then Some true
                 else if word_in val false_words then Some false
                 else None
             | _ => None
             end in
           match matched with
           | Some b => Ok (Some b)
           | None => n ← py_int v; Ok (Some (py_bool_of_int n))
           end
       end)
      (fun _ => conversion_failed key "bool-convertible" v raise_error).

(** ** types.py *)

Inductive HttpMethod : Type :=
  | HttpMethod_get
  | HttpMethod_post
  | HttpMethod_delete
  | HttpMethod_patch.

Definition HttpMethod_eqb (a b : HttpMethod) : bool :=
  match a, b with
  | HttpMethod_get, HttpMethod_get
  | HttpMethod_post, HttpMethod_post
  | HttpMethod_delete, HttpMethod_delete
  | HttpMethod_patch, HttpMethod_patch => true
  | _, _ => false
  end.

(** ** The transport *)

(** A call of [requests.get] or [requests.post] as [__request__] makes it:
    the function called, the URL, the headers and the [json=] argument
    ([None] for [get], which passes none, and for [post] with [json=None]). *)
Record Request : Type := mkRequest {
  q_method : HttpMethod;
  q_url : string;
  q_headers : list (string * string);
  q_json : option value
}.

(** What the client reads of a [requests.Response]: [status_code], [text]
    and [json()], which raises when the body is not JSON. *)
Record Response : Type := mkResponse {
  status_code : Z;
  text : string;
  json_body : option value
}.

Definition Response_json (req : Response) : result value :=
  match json_body req with
  | Some v => Ok v
  | None => Raise (Builtin BJSONDecodeError)
  end.

(** The remote service: its answer to a request, given the requests that
    were issued before. *)
Variable service : list Request -> Request -> Response.

(** An operation of the client: from the requests issued so far to its
    outcome and the requests issued after it. *)
Definition IO (A : Type) : Type := list Request -> result A * list Request.

#[global] Instance IO_ret : MRet IO := fun _ a w => (Ok a, w).
#[global] Instance IO_bind : MBind IO := fun _ _ k m w =>
  match m w with
  | (Ok a, w') => k a w'
  | (Raise e, w') => (Raise e, w')
  end.

#[global] Instance IO_fmap : FMap IO := fun _ _ f m w =>
  match m w with
  | (Ok a, w') => (Ok (f a), w')
  | (Raise e, w') => (Raise e, w')
  end.

Definition raise {A} (e : exn) : IO A := fun w => (Raise e, w).

Definition lift {A} (r : result A) : IO A := fun w => (r, w).

(** [requests.get(url, headers=...)] / [requests.post(url, headers=..., json=...)] *)
Definition send (rq : Request) : IO Response :=
  fun w => (Ok (service w rq), (w ++ [rq])%list).

(** ** client.py *)

Record CocoBaseClient : Type := mkClient {
  api_key : string;
  token : option string
}.

(** [CocoBaseClient.__init__]; the class attribute [token = None] stays
    when no token is given. *)
Definition CocoBaseClient_init (key : string) (tok : option string) : result CocoBaseClient :=
  let self := mkClient key None in
  match tok with
  | None => Ok self
  | Some t => Ok (mkClient (api_key self) (Some t))
  end.

(** [CocoBaseClient.__request__] *)
Definition __request__ (self : CocoBaseClient) (url : string) (method : HttpMethod)
    (data : option value) : IO Response :=
  let url := if py_startswith url "/" then url else "/" ++ url in
  if negb (HttpMethod_eqb method HttpMethod_get || HttpMethod_eqb method HttpMethod_post)
  then raise (ValueError "Invalid HTTP method. Use HttpMethod.get or HttpMethod.post.")
  else
    let url := BASEURL ++ url in
    if HttpMethod_eqb method HttpMethod_get
    then send (mkRequest HttpMethod_get url [("x-api-key", api_key self)] None)
    else send (mkRequest HttpMethod_post url [("x-api-key", api_key self)] data).

(** The three error branches that open the status chain of every
    operation; [None] when the chain goes on to the operation's own
    branches. *)
Definition known_error (req : Response) : option exn :=
  if status_code req =? 400 then Some (CocobaseError ("Invalid Request: " ++ text req))
  else if status_code req =? 422 then Some (CocobaseError ("A field is missing: " ++ text req))
  else if status_code req =? 500 then Some (CocobaseError "Internal Server Error")
  else None.

(** [CocoBaseClient.create_collection] *)
Definition create_collection (self : CocoBaseClient) (collection_name webhookurl : value)
  : IO (option value) :=
  let data : gmap string value := {["name" := collection_name]} in
  let data := if is_None webhookurl then data else <["webhook_url" := webhookurl]> data in
  req ← __request__ self "/collections" HttpMethod_post (Some (VDict data));
  match known_error req with
  | Some e => raise e
  | None =>
      if status_code req =? 201 then j ← lift (Response_json req); mret (Some j)
      else mret None
  end.

(** [CocoBaseClient.update_collection] *)
Definition update_collection (self : CocoBaseClient) (collection_id collection_name webhookurl : value)
  : IO (option value) :=
  let data : gmap string value := ∅ in
  if is_None collection_id then raise (CocobaseError "Collection ID must be provided.")
  else if is_None webhookurl && is_None collection_name
  then raise (CocobaseError "At least one of webhook_url or collection_name must be provided.")
  else
    let data := if is_None webhookurl then data else <["webhook_url" := webhookurl]> data in
    let data := if is_None collection_name then data else <["name" := collection_name]> data in
    cid ← lift (py_str collection_id);
    req ← __request__ self ("/collections/" ++ cid) HttpMethod_post (Some (VDict data));
    match known_error req with
    | Some e => raise e
    | None =>
        if status_code req =? 200 then j ← lift (Response_json req); mret (Some j)
        else mret None
    end.

(** [CocoBaseClient.delete_collection] *)
Definition delete_collection (self : CocoBaseClient) (collection_id : value)
  : IO (option bool) :=
  if is_None collection_id then raise (CocobaseError "Collection ID must be provided.")
  else
    cid ← lift (py_str collection_id);
    req ← __request__ self ("/collections/" ++ cid) HttpMethod_post None;
    match known_error req with
    | Some e => raise e
    | None => if status_code req =? 204 then mret (Some true) else mret None
    end.

(** [str + x]: only a [str] can be concatenated to a [str]. *)
Definition str_concat (s : string) (x : value) : result string :=
  match x with
  | VStr t => Ok (s ++ t)
  | _ => Raise (Builtin BTypeError)
  end.

(** [CocoBaseClient.create_document] *)
Definition create_document (self : CocoBaseClient) (collection_id data : value)
  : IO (option PyRecord) :=
  if is_None collection_id then raise (CocobaseError "Collection ID must be provided.")
  else if negb (is_dict data) then raise (CocobaseError "Data must be a dictionary.")
  else
    url ← lift (str_concat "/collections/documents?collection=" collection_id);
    req ← __request__ self url HttpMethod_post (Some (VDict {["data" := data]}));
    match known_error req with
    | Some e => raise e
    | None =>
        if status_code req =? 201
        then j ← lift (Response_json req); r ← lift (Record_init j); mret (Some r)
        else mret None
    end.

(** The [query] argument of [list_documents] when it is not [None]: an
    instance of [QueryBuilder], or any other object. *)
Inductive query_arg : Type :=
  | IsBuilder (q : QueryBuilder)
  | NotBuilder (v : value).

(** [for doc in obj]: the items of a list, the keys of a dict (their order
    is not modelled), the characters of a string. *)
Definition py_iter (obj : value) : result (list value) :=
  match obj with
  | VList l => Ok l
  | VDict d => Ok ((fun kv => VStr (fst kv)) <$> map_to_list d)
  | VStr s => Ok ((fun c => VStr (String c EmptyString)) <$> list_ascii_of_string s)
  | VNone | VBool _ | VInt _ | VFloat _ => Raise (Builtin BTypeError)
  end.

(** [CocoBaseClient.list_documents] *)
Definition list_documents (self : CocoBaseClient) (collection_id : value) (query : option query_arg)
  : IO (option (list PyRecord)) :=
  if is_None collection_id then raise (CocobaseError "Collection ID must be provided.")
  else
    match query with
    | Some (NotBuilder _) => raise (CocobaseError "Query must be an instance of QueryBuilder.")
    | Some (IsBuilder _) | None =>
        cid ← lift (py_str collection_id);
        let url :=
          match query with
          | Some (IsBuilder q) => "/collections/" ++ cid ++ "/documents?" ++ build q
          | _ => "/collections/" ++ cid ++ "/documents"
          end in
        req ← __request__ self url HttpMethod_get None;
        match known_error req with
        | Some e => raise e
        | None =>
            if status_code req =? 200
            then
              j ← lift (Response_json req);
              docs ← lift (py_iter j);
              rs ← lift (mapM Record_init docs);
              mret (Some rs)
            else mret None
        end
    end.

(** [CocoBaseClient.get_document] *)
Definition get_document (self : CocoBaseClient) (collection_id document_id : value)
  : IO (option PyRecord) :=
  if is_None collection_id then raise (CocobaseError "Collection ID must be provided.")
  else if is_None document_id then raise (CocobaseError "Document ID must be provided.")
  else
    cid ← lift (py_str collection_id);
    did ← lift (py_str document_id);
    req ← __request__ self ("/collections/" ++ cid ++ "/documents/" ++ did) HttpMethod_get None;
    match known_error req with
    | Some e => raise e
    | None =>
        if status_code req =? 200
        then j ← lift (Response_json req); r ← lift (Record_init j); mret (Some r)
        else mret None
    end.

(** The status chain of [delete_document], lines 180-188: what the
    operation does with the response once it has one. *)
Definition delete_document_response (req : Response) : result bool :=
  match known_error req with
  | Some e => Raise e
  | None =>
      if (status_code req =? 200) || (status_code req =? 204) then Ok true
      else Ok false
  end.

(** [CocoBaseClient.delete_document] *)
Definition delete_document (self : CocoBaseClient) (collection_id document_id : value)
  : IO bool :=
  if is_None collection_id then raise (CocobaseError "Collection ID must be provided.")
  else if is_None document_id then raise (CocobaseError "Document ID must be provided.")
  else
    cid ← lift (py_str collection_id);
    did ← lift (py_str document_id);
    req ← __request__ self ("/collections/" ++ cid ++ "/documents/" ++ did) HttpMethod_delete None;
    lift (delete_document_response req).

(** [CocoBaseClient.update_document] *)
Definition update_document (self : CocoBaseClient) (collection_id document_id data : value)
  : IO (option PyRecord) :=
  if is_None collection_id then raise (CocobaseError "Collection ID must be provided.")
  else if is_None document_id then raise (CocobaseError "Document ID must be provided.")
  else if negb (is_dict data) then raise (CocobaseError "Data must be a dictionary.")
  else
    cid ← lift (py_str collection_id);
    did ← lift (py_str document_id);
    req ← __request__ self ("/collections/" ++ cid ++ "/documents/" ++ did) HttpMethod_patch
            (Some (VDict {["data" := data]}));
    match known_error req with
    | Some e => raise e
    | None =>
        if status_code req =? 200
        then j ← lift (Response_json req); r ← lift (Record_init j); mret (Some r)
        else mret None
    end.

(** ** The public operations as one family *)

Inductive call : Type :=
  | CreateCollection (collection_name webhookurl : value)
  | UpdateCollection (collection_id collection_name webhookurl : value)
  | DeleteCollection (collection_id : value)
  | CreateDocument (collection_id data : value)
  | ListDocuments (collection_id : value) (query : option query_arg)
  | GetDocument (collection_id document_id : value)
  | DeleteDocument (collection_id document_id : value)
  | UpdateDocument (collection_id document_id data : value).

(** What an operation hands back: [None] (by falling off its end, or as
    the parsed body [null]), any other parsed JSON body, a boolean, a
    record or a list of records. *)
Inductive retval : Type :=
  | RetNone
  | RetJson (v : value)
  | RetBool (b : bool)
  | RetRecord (r : PyRecord)
  | RetRecords (rs : list PyRecord).

Definition ret_of {A} (f : A -> retval) (o : option A) : retval :=
  match o with
  | Some a => f a
  | None => RetNone
  end.

(** [return req.json()]: a body that parses to [None] is the same object
    as the [None] of falling off the end. *)
Definition ret_json (v : value) : retval :=
  if is_None v then RetNone else RetJson v.

Definition perform (self : CocoBaseClient) (c : call) : IO retval :=
  match c with
  | CreateCollection n u => ret_of ret_json <$> create_collection self n u
  | UpdateCollection i n u => ret_of ret_json <$> update_collection self i n u
  | DeleteCollection i => ret_of RetBool <$> delete_collection self i
  | CreateDocument i d => ret_of RetRecord <$> create_document self i d
  | ListDocuments i q => ret_of RetRecords <$> list_documents self i q
  | GetDocument i d => ret_of RetRecord <$> get_document self i d
  | DeleteDocument i d => RetBool <$> delete_document self i d
  | UpdateDocument i d f => ret_of RetRecord <$> update_document self i d f
  end.

(** ** Vocabulary of the statements *)

(** The arguments pass the operation's own checks and its URL can be built. *)
Definition args_ok (c : call) : bool :=
  match c with
  | CreateCollection _ _ => true
  | UpdateCollection i n u => negb (is_None i) && negb (is_None u && is_None n)
  | DeleteCollection i => negb (is_None i)
  | CreateDocument i d => is_str i && is_dict d
  | ListDocuments i q =>
      negb (is_None i) && match q with Some (NotBuilder _) => false | _ => true end
  | GetDocument i d | DeleteDocument i d => negb (is_None i) && negb (is_None d)
  | UpdateDocument i d f => negb (is_None i) && negb (is_None d) && is_dict f
  end.

(** The operations that ask [__request__] for [HttpMethod.get] or
    [HttpMethod.post]. *)
Definition via_get_or_post (c : call) : bool :=
  match c with
  | DeleteDocument _ _ | UpdateDocument _ _ _ => false
  | _ => true
  end.

(** The status on which the operation returns its result. *)
Definition is_success (c : call) (status : Z) : bool :=
  match c with
  | CreateCollection _ _ | CreateDocument _ _ => status =? 201
  | UpdateCollection _ _ _ | ListDocuments _ _ | GetDocument _ _
  | UpdateDocument _ _ _ => status =? 200
  | DeleteCollection _ => status =? 204
  | DeleteDocument _ _ => (status =? 200) || (status =? 204)
  end.

(** An identifier the operation requires is [None]: the collection name
    for [create_collection], the collection id and the document id for the
    others. *)
Definition identifier_missing (c : call) : bool :=
  match c with
  | CreateCollection n _ => is_None n
  | UpdateCollection i _ _ | DeleteCollection i | CreateDocument i _
  | ListDocuments i _ => is_None i
  | GetDocument i d | DeleteDocument i d | UpdateDocument i d _ => is_None i || is_None d
  end.

Definition is_create_collection (c : call) : bool :=
  match c with CreateCollection _ _ => true | _ => false end.

(** The error of [__request__] on a method it does not dispatch. *)
Definition invalid_method : exn :=
  ValueError "Invalid HTTP method. Use HttpMethod.get or HttpMethod.post.".

(** The operation leaves the list of issued requests as it found it. *)
Definition silent {A} (m : IO A) : Prop :=
  forall w, snd (m w) = w.

(** The operation issues at most one request, and a request it issues
    carries exactly the header [x-api-key: key]. *)
Definition one_keyed_request {A} (key : string) (m : IO A) : Prop :=
  forall w, exists new : list Request,
    snd (m w) = (w ++ new)%list /\
    (length new <= 1)%nat /\
    Forall (fun rq => q_headers rq = [("x-api-key", key)]) new.

(** The specification's reading of a stored string in [getBool]: the
    string is compared, case-insensitively, with the six words, and any
    other string goes to numeric truthiness. *)
Definition spec_getBool_string (s : string) : option bool :=
  if word_in (py_lower s) true_words then Some true
  else if word_in (py_lower s) false_words then Some false
  else py_bool_of_int <$> int_of_string s.

(** The error carries the body: the body occurs in its message. *)
Definition carries_body (e : exn) (body : string) : bool :=
  match exn_message e with
  | Some msg => py_contains body msg
  | None => false
  end.

(** The outcome of a typed getter whose conversion failed: [None] in
    non-strict mode, a [TypeError] in strict mode. *)
Definition conversion_failure {A} (raise_error : bool) (out : result (option A)) : Prop :=
  if raise_error then exists msg, out = Raise (TypeError msg) else out = Ok None.

(** ** Sample surroundings, for closed instances of the statements *)

Definition plain_repr : value -> string := fun _ => "<object>".

(** A datetime kept as its whole number of seconds since the epoch. *)
Definition epoch_seconds (v : value) : result Z :=
  match v with
  | VInt _ | VBool _ | VFloat _ => py_int v
  | VNone | VStr _ | VList _ | VDict _ => Raise (Builtin BTypeError)
  end.

Definition sample_base : string := "https://api.test".

(** A query builder that is its own serialization. *)
Definition literal_query : string -> string := fun q => q.

(** A service that answers every request with the same response. *)
Definition always (resp : Response) : list Request -> Request -> Response :=
  fun _ _ => resp.

Definition sample_client : CocoBaseClient := mkClient "secret" None.

(** A [float(...)] that accepts floats and whole zero only, and an ISO
    parser that knows the epoch only. *)
Definition sample_float (v : value) : result spec_float :=
  match v with
  | VFloat f => Ok f
  | VInt 0 => Ok (S754_zero false)
  | _ => Raise (Builtin BValueError)
  end.

Definition sample_isoformat (s : string) : result Z :=
  if String.eqb s "1970-01-01T00:00:00" then Ok 0 else Raise (Builtin BValueError).

(** ** The rest of record.py *)

(** The builtin [float(...)] and the standard library's
    [datetime.fromisoformat]. *)
Variable py_float : value -> result spec_float.
Variable fromisoformat : string -> result datetime.

(** [Record.items]: the entries of the field map (their order is not
    modelled). *)
Definition Record_items (self : PyRecord) : result (list (string * value)) :=
  match r_data self with
  | VDict d => Ok (map_to_list d)
  | _ => Raise (Builtin BAttributeError)
  end.

(** [Record.get_float] *)
Definition Record_get_float (self : PyRecord) (key : string) (raise_error : bool)
  : result (option spec_float) :=
  v ← dict_get (r_data self) key VNone;
  if is_None v then Ok None
  else
    try_except
      (x ← py_float v; Ok (Some x))
      (fun _ => conversion_failed key "float-convertible" v raise_error).

(** [Record.get_datetime].  A JSON-compatible value is never an instance
    of [datetime], so the first test of the [try] block is false; [bool]
    is a subclass of [int].  The block either returns, or falls through,
    or is left by an exception that [pass] swallows. *)
Definition Record_get_datetime (self : PyRecord) (key : string) (raise_error : bool)
  : result (option datetime) :=
  v ← dict_get (r_data self) key VNone;
  let returned :=
    try_except
      (match v with
       | VBool _ | VInt _ | VFloat _ => t ← fromtimestamp v; Ok (Some t)
       | VStr s => t ← fromisoformat s; Ok (Some t)
       | VNone | VList _ | VDict _ => Ok None
       end)
      (fun _ => Ok None) in
  match returned with
  | Ok (Some t) => Ok (Some t)
  | _ => conversion_failed key "datetime-convertible" v raise_error
  end.

(** ** More vocabulary *)

(** The call raises, whatever the exception. *)
Definition raises {A} (out : result A) : Prop := exists e, out = Raise e.

(** The operations whose result is the parsed body itself. *)
Definition returns_body (c : call) : bool :=
  match c with
  | CreateCollection _ _ | UpdateCollection _ _ _ => true
  | _ => false
  end.

(** The outcome of a typed getter: a value or [None], or, in strict mode
    only, a [TypeError]. *)
Definition getter_outcome {A} (raise_error : bool) (out : result (option A)) : Prop :=
  (exists o, out = Ok o) \/ (raise_error = true /\ exists msg, out = Raise (TypeError msg)).

(** The characters of a string that [int(...)] accepts: blanks, a sign,
    digits and underscores. *)
Definition int_char (c : ascii) : bool :=
  int_space c || Ascii.eqb c "+" || Ascii.eqb c "-" || Ascii.eqb c "_"
  || match digit_value c with Some _ => true | None => false end.

(** Every request the operation issues satisfies [P], and the requests
    issued before are kept. *)
Definition issues_only {A} (P : Request -> Prop) (m : IO A) : Prop :=
  forall w, exists new : list Request,
    snd (m w) = (w ++ new)%list /\ Forall P new.

(** A request of the client: a GET or a POST on a path under
    [/collections] of the base URL. *)
Definition collections_request (rq : Request) : Prop :=
  (q_method rq = HttpMethod_get \/ q_method rq = HttpMethod_post) /\
  exists path, q_url rq = BASEURL ++ "/collections" ++ path.

(** * Properties *)

(** ** The record wrapper *)

(** String conversion succeeds on every value. *)
Lemma py_str_total (v : value) : exists s, py_str v = Ok s.
Proof. destruct v; simpl; eauto. Qed.

Lemma dict_get_present (d : gmap string value) (key : string) (dflt v : value) :
  d !! key = Some v -> dict_get (VDict d) key dflt = Ok v.
Proof. intros Hk. unfold dict_get. now rewrite Hk. Qed.

Lemma dict_get_absent (d : gmap string value) (key : string) (dflt : value) :
  d !! key = None -> dict_get (VDict d) key dflt = Ok dflt.
Proof. intros Hk. unfold dict_get. now rewrite Hk. Qed.

(** C9, as the code has it: on a record whose fields are a dict,
    [get_string] returns [None] for an absent key and for a stored null
    alike, in both modes; it raises nothing in non-strict mode, and nothing
    in strict mode when the stored value is one that [str(...)] converts;
    a stored string comes back as it is, a boolean as "True" or "False",
    and an integer within the digit limit as its decimal text. *)
Theorem get_string_outcomes (self : PyRecord) (d : gmap string value)
    (key : string) (raise_error : bool) :
  r_data self = VDict d ->
  let out := Record_get_string self key raise_error in
  (d !! key = None -> out = Ok None) /\
  (d !! key = Some VNone -> out = Ok None) /\
  (raise_error = false -> exists o, out = Ok o) /\
  (text_convertible (default VNone (d !! key)) = true -> exists o, out = Ok o) /\
  (forall s, d !! key = Some (VStr s) -> out = Ok (Some s)) /\
  (forall b, d !! key = Some (VBool b) ->
     out = Ok (Some (if b then "True" else "False"))) /\
  (forall n, d !! key = Some (VInt n) -> printable_int n = true ->
     out = Ok (Some (str_of_int n))).
Proof.
  intros Hd out. subst out.
  assert (Hok : exists o, Record_get_string self key raise_error = Ok o).
  { unfold Record_get_string, dict_get. rewrite Hd. cbn.
    destruct (default VNone (d !! key)) as [| b | n | f | s | l | m]; cbn; eauto. }
  unfold Record_get_string in *. rewrite Hd in *.
  repeat apply conj.
  - intros Hk. rewrite (dict_get_absent _ _ _ Hk). reflexivity.
  - intros Hk. rewrite (dict_get_present _ _ _ _ Hk). reflexivity.
  - intros _. exact Hok.
  - intros _. exact Hok.
  - intros s Hk. rewrite (dict_get_present _ _ _ _ Hk). reflexivity.
  - intros b Hk. rewrite (dict_get_present _ _ _ _ Hk). reflexivity.
  - intros n Hk _. rewrite (dict_get_present _ _ _ _ Hk). reflexivity.
Qed.

(** On a record whose fields are not a dict the lookup itself fails, in
    both modes: it stands before the [try] block. *)
Lemma get_string_needs_mapping (self : PyRecord) (key : string) (raise_error : bool) :
  is_dict (r_data self) = false ->
  Record_get_string self key raise_error = Raise (Builtin BAttributeError).
Proof.
  intros Hd. unfold Record_get_string.
  destruct (r_data self); [reflexivity .. | discriminate Hd].
Qed.

(** C10: on a key absent from the field map the index-style read raises
    [KeyError] while [get] returns the default; on a present key both
    return the stored value. *)
Theorem getitem_versus_get (self : PyRecord) (d : gmap string value)
    (key : string) (dflt : value) :
  r_data self = VDict d ->
  (d !! key = None ->
     Record_getitem self key = Raise (KeyError key) /\
     Record_get self key dflt = Ok dflt) /\
  (forall v, d !! key = Some v ->
     Record_getitem self key = Ok v /\
     Record_get self key dflt = Ok v).
Proof.
  intros Hd. unfold Record_getitem, Record_get, subscript, dict_get. rewrite Hd.
  split.
  - intros ->. split; reflexivity.
  - intros v ->. split; reflexivity.
Qed.

(** Construction succeeds exactly when the timestamp conversion does, and
    then keeps the [data] entry of the blob as the field map. *)
Lemma Record_init_dict (blob : gmap string value) (t : datetime) :
  fromtimestamp (default (VInt 0) (blob !! "created_at")) = Ok t ->
  Record_init (VDict blob) =
    Ok (mkRecord (default (VDict ∅) (blob !! "data"))
                 (default (VStr "") (blob !! "id"))
                 (default (VStr "") (blob !! "collection_id"))
                 t
                 (default (VDict ∅) (blob !! "collection"))).
Proof.
  intros Ht. unfold Record_init, dict_get. cbn. rewrite Ht. reflexivity.
Qed.

(** C8: a record built from a document blob gives back, through [get],
    every entry of the blob's [data] mapping; [collection_id] and
    [created_at] may be present or not. *)
Theorem record_round_trip (blob d : gmap string value) (t : datetime) (dflt : value) :
  blob !! "data" = Some (VDict d) ->
  fromtimestamp (default (VInt 0) (blob !! "created_at")) = Ok t ->
  exists r,
    Record_init (VDict blob) = Ok r /\
    r_data r = VDict d /\
    forall key v, d !! key = Some v -> Record_get r key dflt = Ok v.
Proof.
  intros Hdata Ht. eexists. split; [apply (Record_init_dict _ _ Ht)|].
  cbn. rewrite Hdata. cbn. split; [reflexivity|].
  intros key v Hk. unfold Record_get. cbn. now rewrite Hk.
Qed.

(** [get_bool] on a stored value that is not null: the body of the [try]
    block, then the handler. *)
Lemma get_bool_stored (self : PyRecord) (d : gmap string value) (key : string)
    (raise_error : bool) (v : value) :
  r_data self = VDict d -> d !! key = Some v -> is_None v = false ->
  Record_get_bool self key raise_error =
    try_except
      (match v with
       | VBool b => Ok (Some b)
       | _ =>
           match
             match v with
             | VStr s =>
                 if word_in (py_lower (py_strip s)) true_words then Some true
                 else if word_in (py_lower (py_strip s)) false_words then Some false
                 else None
             | _ => None
             end
           with
           | Some b => Ok (Some b)
           | None => n ← py_int v; Ok (Some (py_bool_of_int n))
           end
       end)
      (fun _ => conversion_failed key "bool-convertible" v raise_error).
Proof.
  intros Hd Hk Hv. unfold Record_get_bool. rewrite Hd.
  rewrite (dict_get_present _ _ _ _ Hk). cbn [mbind result_bind].
  rewrite Hv. reflexivity.
Qed.

Lemma conversion_failed_failure {A} (key what : string) (v : value) (raise_error : bool) :
  conversion_failure raise_error (@conversion_failed A key what v raise_error).
Proof.
  unfold conversion_failure, conversion_failed. destruct raise_error; [|reflexivity].
  destruct (py_str_total v) as [s ->]. cbn. eauto.
Qed.

(** [get_bool] when [int(...)] rejects the stored value. *)
Lemma get_bool_rejected (self : PyRecord) (d : gmap string value) (key : string)
    (raise_error : bool) (v : value) (e : exn) :
  r_data self = VDict d -> d !! key = Some v -> is_None v = false ->
  match v with
  | VBool _ => False
  | VStr s =>
      word_in (py_lower (py_strip s)) true_words = false /\
      word_in (py_lower (py_strip s)) false_words = false
  | _ => True
  end ->
  py_int v = Raise e ->
  conversion_failure raise_error (Record_get_bool self key raise_error).
Proof.
  intros Hd Hk Hv Hw Hi. rewrite (get_bool_stored _ _ _ _ _ Hd Hk Hv).
  destruct v as [| b | n | f | s | l | m]; try done.
  - rewrite Hi. apply conversion_failed_failure.
  - destruct Hw as [-> ->]. rewrite Hi. apply conversion_failed_failure.
  - apply conversion_failed_failure.
  - apply conversion_failed_failure.
Qed.

(** [get_bool] when [int(...)] accepts the stored value. *)
Lemma get_bool_accepted (self : PyRecord) (d : gmap string value) (key : string)
    (raise_error : bool) (v : value) (n : Z) :
  r_data self = VDict d -> d !! key = Some v -> is_None v = false ->
  match v with
  | VBool _ => False
  | VStr s =>
      word_in (py_lower (py_strip s)) true_words = false /\
      word_in (py_lower (py_strip s)) false_words = false
  | _ => True
  end ->
  py_int v = Ok n ->
  Record_get_bool self key raise_error = Ok (Some (py_bool_of_int n)).
Proof.
  intros Hd Hk Hv Hw Hi. rewrite (get_bool_stored _ _ _ _ _ Hd Hk Hv).
  destruct v as [| b | k | f | s | l | m]; try done.
  - rewrite Hi. reflexivity.
  - rewrite Hi. reflexivity.
  - destruct Hw as [-> ->]. rewrite Hi. reflexivity.
Qed.

(** [get_bool] on a list or a dict: [int(...)] rejects it, and the
    handler returns [None] or raises. *)
Lemma get_bool_container (self : PyRecord) (d : gmap string value) (key : string)
    (raise_error : bool) (v : value) :
  r_data self = VDict d -> d !! key = Some v ->
  match v with VList _ | VDict _ => True | _ => False end ->
  if raise_error then raises (Record_get_bool self key raise_error)
  else Record_get_bool self key raise_error = Ok None.
Proof.
  intros Hd Hk Hv.
  assert (Hnn : is_None v = false) by (destruct v; try done).
  assert (Hi : py_int v = Raise (Builtin BTypeError)) by (destruct v; try done).
  assert (Hw : match v with
               | VBool _ => False
               | VStr s =>
                   word_in (py_lower (py_strip s)) true_words = false /\
                   word_in (py_lower (py_strip s)) false_words = false
               | _ => True
               end) by (destruct v; try done).
  pose proof (get_bool_rejected self d key raise_error v _ Hd Hk Hnn Hw Hi) as H.
  unfold conversion_failure in H. destruct raise_error; [|exact H].
  destruct H as [msg H]. exists (TypeError msg). exact H.
Qed.

(** C7, as the code has it: [get_bool] returns [None] for an absent key or
    a stored null in both modes; a native boolean is returned as it is; a
    string is stripped of surrounding blanks and lowercased, then
    "true", "1", "yes" give [True] and "false", "0", "no" give [False]; any
    other value goes through [int(...)]: an integer, or a string of
    [plain_text] that reads as one, is [True] exactly when it is not zero,
    a float zero is [False] and a float of magnitude at least one is
    [True]; a string of [plain_text] that is no integer, NaN and an
    infinity give [None] in non-strict mode and a [TypeError] in strict
    mode; a list or a dict gives [None] in non-strict mode and an error in
    strict mode.  "YES" gives [True]; "maybe" fails the conversion. *)
Theorem get_bool_coercion (self : PyRecord) (d : gmap string value) (key : string)
    (raise_error : bool) :
  r_data self = VDict d ->
  let out := Record_get_bool self key raise_error in
  (d !! key = None \/ d !! key = Some VNone -> out = Ok None) /\
  (forall b, d !! key = Some (VBool b) -> out = Ok (Some b)) /\
  (forall s, d !! key = Some (VStr s) ->
     let val := py_lower (py_strip s) in
     (word_in val true_words = true -> out = Ok (Some true)) /\
     (word_in val true_words = false -> word_in val false_words = true ->
        out = Ok (Some false)) /\
     (plain_text s = true ->
      word_in val true_words = false -> word_in val false_words = false ->
        match int_of_string s with
        | Some n => out = Ok (Some (negb (n =? 0)))
        | None => conversion_failure raise_error out
        end)) /\
  (forall n, d !! key = Some (VInt n) -> out = Ok (Some (negb (n =? 0)))) /\
  (forall sg, d !! key = Some (VFloat (S754_zero sg)) -> out = Ok (Some false)) /\
  (forall sg m e, d !! key = Some (VFloat (S754_finite sg m e)) ->
     1 <= Z.shiftl (Z.pos m) e -> out = Ok (Some true)) /\
  (forall v, d !! key = Some v ->
     match v with
     | VFloat S754_nan | VFloat (S754_infinity _) => True
     | _ => False
     end -> conversion_failure raise_error out) /\
  (forall v, d !! key = Some v ->
     match v with VList _ | VDict _ => True | _ => False end ->
     if raise_error then raises out else out = Ok None) /\
  (d !! key = Some (VStr "YES") -> out = Ok (Some true)) /\
  (d !! key = Some (VStr "maybe") -> conversion_failure raise_error out).
Proof.
  intros Hd out. subst out.
  assert (Hstr : forall s, d !! key = Some (VStr s) ->
     let val := py_lower (py_strip s) in
     (word_in val true_words = true ->
        Record_get_bool self key raise_error = Ok (Some true)) /\
     (word_in val true_words = false -> word_in val false_words = true ->
        Record_get_bool self key raise_error = Ok (Some false)) /\
     (word_in val true_words = false -> word_in val false_words = false ->
        match int_of_string s with
        | Some n => Record_get_bool self key raise_error = Ok (Some (negb (n =? 0)))
        | None => conversion_failure raise_error (Record_get_bool self key raise_error)
        end)).
  { intros s Hk val. subst val. repeat apply conj.
    - intros Ht. rewrite (get_bool_stored _ _ _ _ _ Hd Hk eq_refl). now rewrite Ht.
    - intros Ht Hf. rewrite (get_bool_stored _ _ _ _ _ Hd Hk eq_refl). now rewrite Ht, Hf.
    - intros Ht Hf. destruct (int_of_string s) as [n|] eqn:Hi.
      + apply (get_bool_accepted _ _ _ _ _ n Hd Hk eq_refl (conj Ht Hf)).
        cbn. now rewrite Hi.
      + apply (get_bool_rejected _ _ _ _ _ (Builtin BValueError) Hd Hk eq_refl (conj Ht Hf)).
        cbn. now rewrite Hi. }
  repeat apply conj.
  - intros [Hk | Hk]; unfold Record_get_bool; rewrite Hd.
    + now rewrite (dict_get_absent _ _ _ Hk).
    + now rewrite (dict_get_present _ _ _ _ Hk).
  - intros b Hk. now rewrite (get_bool_stored _ _ _ _ _ Hd Hk eq_refl).
  - intros s Hk val. destruct (Hstr s Hk) as (H1 & H2 & H3).
    repeat apply conj; [exact H1 | exact H2 | intros _; exact H3].
  - intros n Hk. apply (get_bool_accepted _ _ _ _ _ n Hd Hk eq_refl I eq_refl).
  - intros sg Hk. apply (get_bool_accepted _ _ _ _ _ 0 Hd Hk eq_refl I eq_refl).
  - intros sg m e Hk Hge.
    rewrite (get_bool_accepted _ _ _ raise_error _
               (if sg then - Z.shiftl (Z.pos m) e else Z.shiftl (Z.pos m) e)
               Hd Hk eq_refl I eq_refl).
    unfold py_bool_of_int.
    destruct sg; rewrite (proj2 (Z.eqb_neq _ 0)) by lia; reflexivity.
  - intros v Hk Hv.
    destruct v as [| b | n | [ | sg | | sg m e] | s | l | m]; try done.
    all: eapply (get_bool_rejected _ _ _ _ _ _ Hd Hk eq_refl I); reflexivity.
  - intros v Hk Hv. apply (get_bool_container self d key raise_error v Hd Hk Hv).
  - intros Hk. destruct (Hstr _ Hk) as [H _]. apply H. reflexivity.
  - intros Hk. destruct (Hstr _ Hk) as (_ & _ & H). apply (H eq_refl eq_refl).
Qed.

(** ** The client *)

(** [__request__] with [HttpMethod.post] issues one POST and returns the
    service's answer. *)
Lemma request_post (self : CocoBaseClient) (url : string) (data : option value)
    (w : list Request) :
  let rq := mkRequest HttpMethod_post
              (BASEURL ++ (if py_startswith url "/" then url else "/" ++ url))
              [("x-api-key", api_key self)] data in
  __request__ self url HttpMethod_post data w = (Ok (service w rq), (w ++ [rq])%list).
Proof. reflexivity. Qed.

(** [__request__] with [HttpMethod.get] issues one GET, without a body. *)
Lemma request_get (self : CocoBaseClient) (url : string) (data : option value)
    (w : list Request) :
  let rq := mkRequest HttpMethod_get
              (BASEURL ++ (if py_startswith url "/" then url else "/" ++ url))
              [("x-api-key", api_key self)] None in
  __request__ self url HttpMethod_get data w = (Ok (service w rq), (w ++ [rq])%list).
Proof. reflexivity. Qed.

(** [__request__] refuses [HttpMethod.delete] and [HttpMethod.patch]
    before anything is sent. *)
Lemma request_rejects (self : CocoBaseClient) (url : string) (method : HttpMethod)
    (data : option value) (w : list Request) :
  method = HttpMethod_delete \/ method = HttpMethod_patch ->
  __request__ self url method data w = (Raise invalid_method, w).
Proof. intros [-> | ->]; reflexivity. Qed.

Lemma silent_raise {A} (e : exn) : silent (@raise A e).
Proof. intros w. reflexivity. Qed.

Lemma silent_lift {A} (r : result A) : silent (lift r).
Proof. intros w. reflexivity. Qed.

Lemma silent_mret {A} (a : A) : silent (mret a : IO A).
Proof. intros w. reflexivity. Qed.

Lemma silent_bind {A B} (m : IO A) (k : A -> IO B) :
  silent m -> (forall a, silent (k a)) -> silent (m ≫= k).
Proof.
  intros Hm Hk w. specialize (Hm w). unfold mbind, IO_bind.
  destruct (m w) as [[a | e] w']; cbn in *; subst w'; [apply Hk | reflexivity].
Qed.

Lemma silent_fmap {A B} (f : A -> B) (m : IO A) : silent m -> silent (f <$> m).
Proof.
  intros Hm w. specialize (Hm w). unfold fmap, IO_fmap.
  destruct (m w) as [[a | e] w']; cbn in *; now subst w'.
Qed.

Lemma silent_one_keyed {A} (key : string) (m : IO A) :
  silent m -> one_keyed_request key m.
Proof.
  intros Hm w. exists []. rewrite Hm, app_nil_r. repeat split; [cbn; lia | constructor].
Qed.

Lemma one_keyed_bind {A B} (key : string) (m : IO A) (k : A -> IO B) :
  one_keyed_request key m -> (forall a, silent (k a)) -> one_keyed_request key (m ≫= k).
Proof.
  intros Hm Hk w. destruct (Hm w) as (new & Hw & Hlen & Hall).
  exists new. unfold mbind, IO_bind.
  destruct (m w) as [[a | e] w']; cbn in *; subst w'; [rewrite Hk|]; auto.
Qed.

Lemma silent_then_one_keyed {A B} (key : string) (m : IO A) (k : A -> IO B) :
  silent m -> (forall a, one_keyed_request key (k a)) -> one_keyed_request key (m ≫= k).
Proof.
  intros Hm Hk w. specialize (Hm w). unfold mbind, IO_bind.
  destruct (m w) as [[a | e] w']; cbn in *; subst w'.
  - apply Hk.
  - exists []. rewrite app_nil_r. repeat split; [cbn; lia | constructor].
Qed.

Lemma one_keyed_fmap {A B} (key : string) (f : A -> B) (m : IO A) :
  one_keyed_request key m -> one_keyed_request key (f <$> m).
Proof.
  intros Hm w. destruct (Hm w) as (new & Hw & Hlen & Hall).
  exists new. unfold fmap, IO_fmap.
  destruct (m w) as [[a | e] w']; cbn in *; auto.
Qed.

Lemma request_one_keyed (self : CocoBaseClient) (url : string) (method : HttpMethod)
    (data : option value) :
  one_keyed_request (api_key self) (__request__ self url method data).
Proof.
  intros w. destruct method.
  - rewrite request_get. eexists [_]. repeat split; [cbn; lia | repeat constructor].
  - rewrite request_post. eexists [_]. repeat split; [cbn; lia | repeat constructor].
  - rewrite request_rejects by auto. exists []. rewrite app_nil_r.
    repeat split; [cbn; lia | constructor].
  - rewrite request_rejects by auto. exists []. rewrite app_nil_r.
    repeat split; [cbn; lia | constructor].
Qed.

Ltac quiet :=
  repeat first
    [ apply silent_raise | apply silent_lift | apply silent_mret
    | apply silent_bind; [|intros ?]
    | match goal with |- silent (match ?x with _ => _ end) => destruct x end ].

Ltac keyed :=
  cbv zeta;
  repeat first
    [ apply request_one_keyed
    | apply silent_one_keyed; solve [quiet]
    | apply one_keyed_bind; [apply request_one_keyed | intros ?; solve [quiet]]
    | apply silent_then_one_keyed; [solve [quiet] | intros ?]
    | match goal with
      | |- one_keyed_request _ (match ?x with _ => _ end) => destruct x
      end ].

(** Every operation issues at most one request, and the request carries
    the client's key. *)
Lemma perform_one_keyed (self : CocoBaseClient) (c : call) :
  one_keyed_request (api_key self) (perform self c).
Proof.
  destruct c; cbn [perform]; apply one_keyed_fmap.
  - unfold create_collection. keyed.
  - unfold update_collection. keyed.
  - unfold delete_collection. keyed.
  - unfold create_document. keyed.
  - unfold list_documents. keyed.
  - unfold get_document. keyed.
  - unfold delete_document. keyed.
  - unfold update_document. keyed.
Qed.

(** An operation whose arguments pass its checks and that dispatches
    through GET or POST raises the error of the status chain when the
    response has one of the three known statuses. *)
Lemma perform_known_error (self : CocoBaseClient) (c : call) (w : list Request)
    (resp : Response) (e : exn) :
  args_ok c = true -> via_get_or_post c = true ->
  (forall rq, service w rq = resp) ->
  known_error resp = Some e ->
  fst (perform self c w) = Raise e.
Proof.
  intros Hargs Hvia Hsvc Herr.
  destruct c as [n u | i n u | i | i f | i q | i x | i x | i x f];
    try discriminate Hvia; cbn in Hargs.
  - unfold perform, create_collection, fmap, IO_fmap, mbind, IO_bind.
    cbv zeta. rewrite request_post, Hsvc, Herr. reflexivity.
  - unfold perform, update_collection, fmap, IO_fmap, mbind, IO_bind.
    destruct (is_None i); [discriminate|].
    destruct (is_None u && is_None n); [discriminate|]. cbv zeta.
    destruct (py_str_total i) as [s ->]. cbn [lift].
    rewrite request_post, Hsvc, Herr. reflexivity.
  - unfold perform, delete_collection, fmap, IO_fmap, mbind, IO_bind.
    destruct (is_None i); [discriminate|].
    destruct (py_str_total i) as [s ->]. cbn [lift].
    rewrite request_post, Hsvc, Herr. reflexivity.
  - unfold perform, create_document, fmap, IO_fmap, mbind, IO_bind.
    destruct i; try discriminate. destruct f; try discriminate.
    cbn [is_None is_dict negb lift str_concat].
    rewrite request_post, Hsvc, Herr. reflexivity.
  - unfold perform, list_documents, fmap, IO_fmap, mbind, IO_bind.
    destruct (is_None i); [discriminate|].
    destruct (py_str_total i) as [s Hs].
    destruct q as [[b | v] |]; try discriminate; rewrite Hs; cbn [lift]; cbv zeta;
      rewrite request_get, Hsvc, Herr; reflexivity.
  - unfold perform, get_document, fmap, IO_fmap, mbind, IO_bind.
    destruct (is_None i); [discriminate|]. destruct (is_None x); [discriminate|].
    destruct (py_str_total i) as [s ->]. destruct (py_str_total x) as [t ->]. cbn [lift].
    rewrite request_get, Hsvc, Herr. reflexivity.
Qed.

(** When the status is none of the three known ones and not the one the
    operation succeeds on, the operation falls off its end: it returns
    [None] after its one request. *)
Lemma perform_falls_through (self : CocoBaseClient) (c : call) (w : list Request)
    (resp : Response) :
  args_ok c = true -> via_get_or_post c = true ->
  (forall rq, service w rq = resp) ->
  known_error resp = None ->
  is_success c (status_code resp) = false ->
  exists rq, perform self c w = (Ok RetNone, (w ++ [rq])%list).
Proof.
  intros Hargs Hvia Hsvc Herr Hsucc.
  destruct c as [n u | i n u | i | i f | i q | i x | i x | i x f];
    try discriminate Hvia; cbn in Hargs, Hsucc.
  - unfold perform, create_collection, fmap, IO_fmap, mbind, IO_bind.
    cbv zeta. rewrite request_post, Hsvc, Herr, Hsucc. eexists. reflexivity.
  - unfold perform, update_collection, fmap, IO_fmap, mbind, IO_bind.
    destruct (is_None i); [discriminate|].
    destruct (is_None u && is_None n); [discriminate|]. cbv zeta.
    destruct (py_str_total i) as [s ->]. cbn [lift].
    rewrite request_post, Hsvc, Herr, Hsucc. eexists. reflexivity.
  - unfold perform, delete_collection, fmap, IO_fmap, mbind, IO_bind.
    destruct (is_None i); [discriminate|].
    destruct (py_str_total i) as [s ->]. cbn [lift].
    rewrite request_post, Hsvc, Herr, Hsucc. eexists. reflexivity.
  - unfold perform, create_document, fmap, IO_fmap, mbind, IO_bind.
    destruct i; try discriminate. destruct f; try discriminate.
    cbn [is_None is_dict negb lift str_concat].
    rewrite request_post, Hsvc, Herr, Hsucc. eexists. reflexivity.
  - unfold perform, list_documents, fmap, IO_fmap, mbind, IO_bind.
    destruct (is_None i); [discriminate|].
    destruct (py_str_total i) as [s Hs].
    destruct q as [[b | v] |]; try discriminate; rewrite Hs; cbn [lift]; cbv zeta;
      rewrite request_get, Hsvc, Herr, Hsucc; eexists; reflexivity.
  - unfold perform, get_document, fmap, IO_fmap, mbind, IO_bind.
    destruct (is_None i); [discriminate|]. destruct (is_None x); [discriminate|].
    destruct (py_str_total i) as [s ->]. destruct (py_str_total x) as [t ->]. cbn [lift].
    rewrite request_get, Hsvc, Herr, Hsucc. eexists. reflexivity.
Qed.

Lemma known_error_none (resp : Response) :
  status_code resp <> 400 -> status_code resp <> 422 -> status_code resp <> 500 ->
  known_error resp = None.
Proof.
  intros H1 H2 H3. unfold known_error.
  rewrite (proj2 (Z.eqb_neq _ _) H1), (proj2 (Z.eqb_neq _ _) H2), (proj2 (Z.eqb_neq _ _) H3).
  reflexivity.
Qed.

(** C3, as the code has it: for each of the six operations dispatched
    through GET or POST, a response whose status is none of 400, 422, 500
    and not the operation's success status makes the operation return
    [None], after its one request and without an error. *)
Theorem unlisted_status_returns_None (self : CocoBaseClient) (c : call)
    (w : list Request) (resp : Response) :
  args_ok c = true -> via_get_or_post c = true ->
  (forall rq, service w rq = resp) ->
  status_code resp <> 400 -> status_code resp <> 422 -> status_code resp <> 500 ->
  is_success c (status_code resp) = false ->
  exists rq, perform self c w = (Ok RetNone, (w ++ [rq])%list).
Proof.
  intros Hargs Hvia Hsvc H1 H2 H3 Hsucc.
  apply (perform_falls_through self c w resp); auto using known_error_none.
Qed.

(** C6, as the code has it: for each of the six operations dispatched
    through GET or POST, the error raised on 400 and on 422 ends with the
    raw body of the response, and the error raised on 500 is the fixed
    text "Internal Server Error", without the body. *)
Theorem known_status_messages (self : CocoBaseClient) (c : call)
    (w : list Request) (resp : Response) :
  args_ok c = true -> via_get_or_post c = true ->
  (forall rq, service w rq = resp) ->
  (status_code resp = 400 ->
     fst (perform self c w) = Raise (CocobaseError ("Invalid Request: " ++ text resp))) /\
  (status_code resp = 422 ->
     fst (perform self c w) = Raise (CocobaseError ("A field is missing: " ++ text resp))) /\
  (status_code resp = 500 ->
     fst (perform self c w) = Raise (CocobaseError "Internal Server Error")).
Proof.
  intros Hargs Hvia Hsvc.
  repeat apply conj; intros Hs;
    apply (perform_known_error self c w resp _ Hargs Hvia Hsvc);
    unfold known_error; rewrite Hs; reflexivity.
Qed.

(** The status chain written in [delete_document] (lines 180-188), on the
    response it is written for: [True] on 200 and 204, an error on 400,
    422 and 500, [False] on every other status. *)
Lemma delete_document_response_chain (req : Response) :
  (status_code req = 200 \/ status_code req = 204 ->
     delete_document_response req = Ok true) /\
  (status_code req = 400 ->
     delete_document_response req = Raise (CocobaseError ("Invalid Request: " ++ text req))) /\
  (status_code req = 422 ->
     delete_document_response req = Raise (CocobaseError ("A field is missing: " ++ text req))) /\
  (status_code req = 500 ->
     delete_document_response req = Raise (CocobaseError "Internal Server Error")) /\
  (status_code req <> 200 -> status_code req <> 204 -> status_code req <> 400 ->
   status_code req <> 422 -> status_code req <> 500 ->
     delete_document_response req = Ok false).
Proof.
  unfold delete_document_response, known_error.
  repeat apply conj.
  - intros [-> | ->]; reflexivity.
  - intros ->. reflexivity.
  - intros ->. reflexivity.
  - intros ->. reflexivity.
  - intros H1 H2 H3 H4 H5.
    rewrite (proj2 (Z.eqb_neq _ _) H1), (proj2 (Z.eqb_neq _ _) H2),
      (proj2 (Z.eqb_neq _ _) H3), (proj2 (Z.eqb_neq _ _) H4), (proj2 (Z.eqb_neq _ _) H5).
    reflexivity.
Qed.

(** C2: [update_document] asks [__request__] for [HttpMethod.patch], which
    [__request__] refuses: with identifiers and a dict of fields the
    operation raises [ValueError] and no request is issued. *)
Theorem update_document_never_dispatches (self : CocoBaseClient) (cid did : string)
    (fields : gmap string value) (w : list Request) :
  update_document self (VStr cid) (VStr did) (VDict fields) w = (Raise invalid_method, w).
Proof. reflexivity. Qed.

(** C1: [delete_document] asks [__request__] for [HttpMethod.delete], which
    [__request__] refuses as it refuses [HttpMethod.patch]: with both
    identifiers given, and whatever the service would answer, the
    operation raises [ValueError], issues no request and returns no
    boolean. *)
Theorem delete_document_never_dispatches (self : CocoBaseClient) (cid did : string)
    (w : list Request) :
  delete_document self (VStr cid) (VStr did) w = (Raise invalid_method, w) /\
  forall (b : bool) (w' : list Request),
    delete_document self (VStr cid) (VStr did) w <> (Ok b, w').
Proof. split; [reflexivity | intros b w' H; discriminate H]. Qed.

(** C4: [create_collection] does not check its collection name: with the
    name absent it still issues its POST, the name sent as null. *)
Theorem create_collection_sends_without_name (self : CocoBaseClient) (w : list Request) :
  snd (create_collection self VNone VNone w) =
    (w ++ [mkRequest HttpMethod_post (BASEURL ++ "/collections")
             [("x-api-key", api_key self)]
             (Some (VDict {["name" := VNone]}))])%list.
Proof.
  unfold create_collection, mbind, IO_bind. cbv zeta. rewrite request_post.
  cbn [is_None py_startswith String.prefix].
  destruct (known_error _); [reflexivity|].
  destruct (_ =? 201); [|reflexivity].
  unfold lift. destruct (Response_json _); reflexivity.
Qed.

(** X24: the seven other operations do check: an absent identifier raises
    [CocobaseError] and nothing is sent. *)
Lemma missing_identifier_fails_fast (self : CocoBaseClient) (c : call) (w : list Request) :
  identifier_missing c = true -> is_create_collection c = false ->
  exists msg, perform self c w = (Raise (CocobaseError msg), w).
Proof.
  intros Hmiss Hcc.
  destruct c as [n u | i n u | i | i f | i q | i x | i x | i x f];
    try discriminate Hcc; cbn in Hmiss.
  - destruct i; try discriminate. eexists. reflexivity.
  - destruct i; try discriminate. eexists. reflexivity.
  - destruct i; try discriminate. eexists. reflexivity.
  - destruct i; try discriminate. eexists. reflexivity.
  - destruct i; [eexists; reflexivity | ..];
      (destruct x; try discriminate; eexists; reflexivity).
  - destruct i; [eexists; reflexivity | ..];
      (destruct x; try discriminate; eexists; reflexivity).
  - destruct i; [eexists; reflexivity | ..];
      (destruct x; try discriminate; eexists; reflexivity).
Qed.

(** C5, as the code has it: construction succeeds for every key, the
    empty one included, and stores it unchanged; every request of every
    operation then carries it as [x-api-key]. *)
Theorem construction_stores_key (key : string) (tok : option string) :
  exists self,
    CocoBaseClient_init key tok = Ok self /\
    api_key self = key /\
    token self = tok /\
    forall c, one_keyed_request key (perform self c).
Proof.
  exists (mkClient key tok). repeat apply conj.
  - destruct tok; reflexivity.
  - reflexivity.
  - reflexivity.
  - intros c. apply (perform_one_keyed (mkClient key tok) c).
Qed.

(** * Further properties *)

(** ** Reading after writing *)

(** X1: after [record[key] = v] the key reads as [v], through the index
    and through [get]; every other key reads as before, and the
    identifiers, the timestamp and the collection of the record are
    untouched. *)
Theorem setitem_then_read (self : PyRecord) (d : gmap string value) (key : string)
    (v dflt : value) :
  r_data self = VDict d ->
  exists r',
    Record_setitem self key v = Ok r' /\
    Record_getitem r' key = Ok v /\
    Record_get r' key dflt = Ok v /\
    (forall other, other <> key ->
       Record_getitem r' other = Record_getitem self other /\
       Record_get r' other dflt = Record_get self other dflt) /\
    r_id r' = r_id self /\ r_collectionId r' = r_collectionId self /\
    r_createdAt r' = r_createdAt self /\ r_collection r' = r_collection self.
Proof.
  intros Hd. unfold Record_setitem. rewrite Hd. eexists. split; [reflexivity|].
  unfold Record_getitem, Record_get, subscript, dict_get. cbn. rewrite Hd.
  rewrite lookup_insert_eq. repeat apply conj; try reflexivity.
  intros other Hne. rewrite lookup_insert_ne by congruence. split; reflexivity.
Qed.

(** X2: [del record[key]] raises [KeyError] on an absent key; on a present
    key it succeeds, after which the index read raises [KeyError], [get]
    returns the default, and every other key reads as before. *)
Theorem delitem_then_read (self : PyRecord) (d : gmap string value) (key : string)
    (dflt : value) :
  r_data self = VDict d ->
  (d !! key = None -> Record_delitem self key = Raise (KeyError key)) /\
  (forall v, d !! key = Some v ->
     exists r',
       Record_delitem self key = Ok r' /\
       Record_getitem r' key = Raise (KeyError key) /\
       Record_get r' key dflt = Ok dflt /\
       (forall other, other <> key ->
          Record_getitem r' other = Record_getitem self other /\
          Record_get r' other dflt = Record_get self other dflt) /\
       r_id r' = r_id self /\ r_collectionId r' = r_collectionId self /\
       r_createdAt r' = r_createdAt self /\ r_collection r' = r_collection self).
Proof.
  intros Hd. unfold Record_delitem. rewrite Hd. split.
  - intros ->. reflexivity.
  - intros v ->. eexists. split; [reflexivity|].
    unfold Record_getitem, Record_get, subscript, dict_get. cbn. rewrite Hd.
    rewrite lookup_delete_eq. repeat apply conj; try reflexivity.
    intros other Hne. rewrite lookup_delete_ne by congruence. split; reflexivity.
Qed.

(** X3: writing a key that the record does not have and deleting it again
    gives back the record as it was; writing a key twice is writing the
    last value once. *)
Theorem setitem_delitem_restores (self : PyRecord) (d : gmap string value) (key : string)
    (v v' : value) :
  r_data self = VDict d ->
  (d !! key = None ->
     (r' ← Record_setitem self key v; Record_delitem r' key) = Ok self) /\
  (r' ← Record_setitem self key v; Record_setitem r' key v') = Record_setitem self key v'.
Proof.
  intros Hd. destruct self as [dat i c t col]. cbn in Hd. subst dat.
  unfold Record_setitem, Record_delitem. cbn. split.
  - intros Hk. rewrite lookup_insert_eq. rewrite delete_insert_eq.
    rewrite delete_id by exact Hk. reflexivity.
  - rewrite insert_insert_eq. reflexivity.
Qed.

(** X4: a string, an integer or a boolean written under a key is read
    back unchanged by the getter of its type, in either mode. *)
Theorem typed_read_after_write (self : PyRecord) (d : gmap string value) (key : string)
    (raise_error : bool) :
  r_data self = VDict d ->
  (forall s, exists r',
     Record_setitem self key (VStr s) = Ok r' /\
     Record_get_string r' key raise_error = Ok (Some s)) /\
  (forall n, exists r',
     Record_setitem self key (VInt n) = Ok r' /\
     Record_get_int r' key raise_error = Ok (Some n)) /\
  (forall b, exists r',
     Record_setitem self key (VBool b) = Ok r' /\
     Record_get_bool r' key raise_error = Ok (Some b)).
Proof.
  intros Hd. unfold Record_setitem. rewrite Hd.
  repeat apply conj; intros x; eexists; (split; [reflexivity|]).
  - unfold Record_get_string, dict_get. cbn. rewrite lookup_insert_eq. reflexivity.
  - unfold Record_get_int, dict_get. cbn. rewrite lookup_insert_eq. reflexivity.
  - unfold Record_get_bool, dict_get. cbn. rewrite lookup_insert_eq. reflexivity.
Qed.

(** ** Construction and enumeration *)

(** X5: [Record(blob)] succeeds exactly when the blob is a dict whose
    [created_at] entry (0 when absent) is accepted by
    [datetime.fromtimestamp]; the record then holds the entries of the
    blob, with an empty map for an absent [data] or [collection] and an
    empty string for an absent [id] or [collection_id]. *)
Theorem Record_init_succeeds_iff (blob : value) (r : PyRecord) :
  Record_init blob = Ok r <->
  exists (m : gmap string value) (t : datetime),
    blob = VDict m /\
    fromtimestamp (default (VInt 0) (m !! "created_at")) = Ok t /\
    r = mkRecord (default (VDict ∅) (m !! "data"))
                 (default (VStr "") (m !! "id"))
                 (default (VStr "") (m !! "collection_id"))
                 t
                 (default (VDict ∅) (m !! "collection")).
Proof.
  split.
  - intros H. destruct blob as [| b | n | f | s | l | m]; try discriminate H.
    unfold Record_init, dict_get in H. cbn in H.
    destruct (fromtimestamp _) as [t | e] eqn:Ht; [|discriminate H].
    cbn in H. injection H as <-. eauto.
  - intros (m & t & -> & Ht & ->). apply (Record_init_dict _ _ Ht).
Qed.

(** X6: [items()] lists each key once, and lists the pair of a key and a
    value exactly when the index read of the key gives the value. *)
Theorem items_agree_with_getitem (self : PyRecord) (d : gmap string value) :
  r_data self = VDict d ->
  exists l,
    Record_items self = Ok l /\
    NoDup l.*1 /\
    forall key v, (key, v) ∈ l <-> Record_getitem self key = Ok v.
Proof.
  intros Hd. exists (map_to_list d). unfold Record_items, Record_getitem, subscript.
  rewrite Hd. split; [reflexivity|]. split; [apply NoDup_fst_map_to_list|].
  intros key v. rewrite elem_of_map_to_list.
  destruct (d !! key) as [x|]; split; intros H; congruence.
Qed.


(** ** The typed getters *)

Lemma conversion_failed_outcome {A} (key what : string) (v : value) (raise_error : bool) :
  getter_outcome raise_error (@conversion_failed A key what v raise_error).
Proof.
  unfold getter_outcome, conversion_failed. destruct raise_error.
  - right. destruct (py_str_total v) as [s ->]. cbn. eauto.
  - left. eauto.
Qed.

Lemma try_except_outcome {A} (body : result (option A)) (key what : string) (v : value)
    (raise_error : bool) :
  getter_outcome raise_error
    (try_except body (fun _ => conversion_failed key what v raise_error)).
Proof.
  destruct body as [o | e]; cbn.
  - left. eauto.
  - apply conversion_failed_outcome.
Qed.

(** X7: on a record whose fields are a dict, no exception leaves any of
    the five typed getters in non-strict mode; in strict mode, when the
    stored value is one that [str(...)] converts (the handler interpolates
    it in its message), each getter returns a value or [None], or raises a
    [TypeError], and no other exception. *)
Theorem getters_raise_only_TypeError (self : PyRecord) (d : gmap string value)
    (key : string) (raise_error : bool) :
  r_data self = VDict d ->
  raise_error = false \/ text_convertible (default VNone (d !! key)) = true ->
  getter_outcome raise_error (Record_get_string self key raise_error) /\
  getter_outcome raise_error (Record_get_int self key raise_error) /\
  getter_outcome raise_error (Record_get_float self key raise_error) /\
  getter_outcome raise_error (Record_get_bool self key raise_error) /\
  getter_outcome raise_error (Record_get_datetime self key raise_error).
Proof.
  intros Hd _.
  unfold Record_get_string, Record_get_int, Record_get_float, Record_get_bool,
    Record_get_datetime, dict_get.
  rewrite Hd. cbn [mbind result_bind].
  set (v := default VNone (d !! key)).
  repeat apply conj.
  - apply try_except_outcome.
  - destruct (is_None v); [left; eauto | apply try_except_outcome].
  - destruct (is_None v); [left; eauto | apply try_except_outcome].
  - destruct (is_None v); [left; eauto | apply try_except_outcome].
  - cbv zeta. destruct (try_except _ _) as [[t |] | e].
    + left. eauto.
    + apply conversion_failed_outcome.
    + apply conversion_failed_outcome.
Qed.

(** X8: in strict mode a missing key or a stored null gives [None] from
    [get_string], [get_int], [get_float] and [get_bool], but a
    [TypeError] from [get_datetime]. *)
Theorem strict_getters_on_missing_key (self : PyRecord) (d : gmap string value)
    (key : string) :
  r_data self = VDict d ->
  d !! key = None \/ d !! key = Some VNone ->
  Record_get_string self key true = Ok None /\
  Record_get_int self key true = Ok None /\
  Record_get_float self key true = Ok None /\
  Record_get_bool self key true = Ok None /\
  Record_get_datetime self key true =
    Raise (TypeError ("Value for '" ++ key ++ "' is not datetime-convertible: None")) /\
  Record_get_datetime self key false = Ok None.
Proof.
  intros Hd Hk.
  assert (Hv : dict_get (r_data self) key VNone = Ok VNone).
  { rewrite Hd. destruct Hk as [Hk | Hk];
      [apply (dict_get_absent _ _ _ Hk) | apply (dict_get_present _ _ _ _ Hk)]. }
  unfold Record_get_string, Record_get_int, Record_get_float, Record_get_bool,
    Record_get_datetime.
  rewrite Hv. repeat apply conj; reflexivity.
Qed.



(** ** [get_bool] against [get_int] *)

Ltac each_ascii c :=
  let b0 := fresh in let b1 := fresh in let b2 := fresh in let b3 := fresh in
  let b4 := fresh in let b5 := fresh in let b6 := fresh in let b7 := fresh in
  destruct c as [b0 b1 b2 b3 b4 b5 b6 b7];
  destruct b0, b1, b2, b3, b4, b5, b6, b7.

Lemma int_char_lower (c : ascii) : int_char c = true -> lower_ascii c = c.
Proof. each_ascii c; intros H; solve [reflexivity | discriminate H]. Qed.

Lemma int_char_blank (c : ascii) :
  int_char c = true -> strip_space c = true -> int_space c = true.
Proof. each_ascii c; intros H1 H2; solve [reflexivity | discriminate H1 | discriminate H2]. Qed.

Lemma int_space_neutral (c : ascii) :
  int_space c = true ->
  digit_value c = None /\ Ascii.eqb c "_" = false /\
  Ascii.eqb c "+" = false /\ Ascii.eqb c "-" = false.
Proof. each_ascii c; intros H; solve [repeat split | discriminate H]. Qed.

Lemma digit_int_char (c : ascii) (k : Z) : digit_value c = Some k -> int_char c = true.
Proof.
  intros H. unfold int_char. rewrite H. now rewrite !orb_true_r.
Qed.

Lemma lskip_split (sp : ascii -> bool) (cs : list ascii) :
  exists pre, cs = (pre ++ lskip sp cs)%list /\ Forall (fun c => sp c = true) pre.
Proof.
  induction cs as [| c cs IH]; cbn.
  - exists []. split; [reflexivity | constructor].
  - destruct (sp c) eqn:Hc.
    + destruct IH as (pre & Heq & Hpre). exists (c :: pre). split.
      * cbn. now rewrite <- Heq.
      * now constructor.
    + exists []. split; [reflexivity | constructor].
Qed.

Lemma rskip_split (sp : ascii -> bool) (cs : list ascii) :
  exists post, cs = (rskip sp cs ++ post)%list /\ Forall (fun c => sp c = true) post.
Proof.
  unfold rskip. destruct (lskip_split sp (rev cs)) as (pre & Heq & Hpre).
  exists (rev pre). split.
  - rewrite <- rev_app_distr, <- Heq. now rewrite rev_involutive.
  - now apply Forall_rev.
Qed.

Lemma lskip_all (sp : ascii -> bool) (cs : list ascii) :
  Forall (fun c => sp c = true) cs -> lskip sp cs = [].
Proof. induction 1 as [| c cs Hc _ IH]; cbn; [reflexivity | now rewrite Hc]. Qed.

Lemma lskip_nil_all (sp : ascii -> bool) (cs : list ascii) :
  lskip sp cs = [] -> Forall (fun c => sp c = true) cs.
Proof.
  induction cs as [| c cs IH]; cbn; [constructor|].
  destruct (sp c) eqn:Hc; [|discriminate]. intros H. constructor; auto.
Qed.

Lemma lskip_app_all (sp : ascii -> bool) (pre cs : list ascii) :
  Forall (fun c => sp c = true) pre -> lskip sp (pre ++ cs) = lskip sp cs.
Proof. induction 1 as [| c pre Hc _ IH]; cbn; [reflexivity | now rewrite Hc]. Qed.

(** A string that [get_bool] matches with one of its six words is ASCII
    text: blanks around letters or a digit. *)
Lemma strip_space_ascii (c : ascii) : strip_space c = true -> (code c <? 128) = true.
Proof. each_ascii c; intros H; solve [reflexivity | discriminate H]. Qed.

Lemma lower_ascii_ascii (c : ascii) :
  (code (lower_ascii c) <? 128) = true -> (code c <? 128) = true.
Proof. each_ascii c; intros H; solve [reflexivity | discriminate H]. Qed.

Lemma matched_word_is_ascii (s : string) :
  word_in (py_lower (py_strip s)) (true_words ++ false_words) = true ->
  is_ascii s = true.
Proof.
  intros Hw. unfold is_ascii.
  destruct (lskip_split strip_space (list_ascii_of_string s)) as (pre & Heq & Hpre).
  destruct (rskip_split strip_space (lskip strip_space (list_ascii_of_string s)))
    as (post & Heq' & Hpost).
  set (core := rskip strip_space (lskip strip_space (list_ascii_of_string s))) in *.
  rewrite Heq, Heq', !forallb_app.
  assert (Hblank : forall l, Forall (fun c => strip_space c = true) l ->
            forallb (fun c => code c <? 128) l = true).
  { induction 1 as [| c l Hc _ IH]; cbn [forallb]; [reflexivity|].
    now rewrite (strip_space_ascii c Hc). }
  rewrite (Hblank pre Hpre), (Hblank post Hpost), andb_true_r. cbn [andb].
  assert (Hlow : forallb (fun c => code c <? 128) (map lower_ascii core) = true).
  { unfold py_lower, py_strip in Hw. fold core in Hw.
    rewrite list_ascii_of_string_of_list_ascii in Hw.
    unfold word_in in Hw. apply existsb_exists in Hw as (w & Hin & Hw).
    apply String.eqb_eq in Hw.
    apply (f_equal list_ascii_of_string) in Hw.
    rewrite list_ascii_of_string_of_list_ascii in Hw. rewrite Hw.
    cbn in Hin. destruct Hin as [<- | [<- | [<- | [<- | [<- | [<- | []]]]]]]; reflexivity. }
  clear -Hlow. induction core as [| c l IH]; [reflexivity|].
  cbn [map forallb] in *. apply andb_prop in Hlow as [Hc Hl].
  now rewrite (lower_ascii_ascii c Hc), (IH Hl).
Qed.

(** What [int_digits] reads is made of digits and underscores. *)
Lemma int_digits_used (k : nat) :
  forall cs : list ascii, (length cs <= k)%nat ->
  forall acc n rest, int_digits acc cs = Some (n, rest) ->
  exists used, cs = (used ++ rest)%list /\ Forall (fun c => int_char c = true) used.
Proof.
  induction k as [| k IH]; intros cs Hlen acc n rest H.
  - destruct cs; [|cbn in Hlen; lia]. cbn in H. injection H as <- <-.
    exists []. split; [reflexivity | constructor].
  - destruct cs as [| c cs]; cbn in H.
    + injection H as <- <-. exists []. split; [reflexivity | constructor].
    + cbn in Hlen. destruct (digit_value c) as [dv |] eqn:Hc.
      * destruct (IH cs ltac:(lia) _ _ _ H) as (used & -> & Hused).
        exists (c :: used). split; [reflexivity|].
        constructor; [apply (digit_int_char _ _ Hc) | exact Hused].
      * destruct (Ascii.eqb c "_") eqn:Hu.
        -- destruct cs as [| c' cs]; [discriminate H|].
           destruct (digit_value c') as [dv' |] eqn:Hc'; [|discriminate H].
           cbn in Hlen.
           destruct (IH cs ltac:(lia) _ _ _ H) as (used & -> & Hused).
           exists (c :: c' :: used). split; [reflexivity|].
           constructor; [|constructor; [apply (digit_int_char _ _ Hc') | exact Hused]].
           unfold int_char. rewrite Hu. now rewrite !orb_true_r.
        -- injection H as <- <-. exists []. split; [reflexivity | constructor].
Qed.

(** A string that [int(...)] accepts is made of blanks, signs, digits and
    underscores. *)
Lemma int_of_string_chars (s : string) (n : Z) :
  int_of_string s = Some n ->
  Forall (fun c => int_char c = true) (list_ascii_of_string s).
Proof.
  unfold int_of_string. intros H.
  destruct (lskip_split int_space (list_ascii_of_string s)) as (pre & Heq & Hpre).
  rewrite Heq. apply Forall_app. split.
  { eapply Forall_impl; [exact Hpre|]. cbn. intros c Hc. unfold int_char. now rewrite Hc. }
  set (cs := lskip int_space (list_ascii_of_string s)) in *. clearbody cs.
  assert (Htail : forall cs', 
    match cs' with
    | c :: cs'' =>
        match digit_value c with
        | Some dv =>
            match int_digits dv cs'' with
            | Some (m, rest) =>
                match lskip int_space rest with
                | [] => Some m
                | _ :: _ => None
                end
            | None => None
            end
        | None => None
        end
    | [] => None
    end <> None -> Forall (fun c => int_char c = true) cs').
  { intros [| c cs''] Hne; [done|].
    destruct (digit_value c) as [dv |] eqn:Hc; [|done].
    destruct (int_digits dv cs'') as [[m rest] |] eqn:Hd; [|done].
    destruct (int_digits_used _ cs'' (le_n _) _ _ _ Hd) as (used & -> & Hused).
    constructor; [apply (digit_int_char _ _ Hc)|].
    apply Forall_app. split; [exact Hused|].
    destruct (lskip int_space rest) eqn:Hr; [|done].
    eapply Forall_impl; [apply (lskip_nil_all _ _ Hr)|].
    cbn. intros x Hx. unfold int_char. now rewrite Hx. }
  destruct cs as [| c cs']; [discriminate H|].
  destruct (Ascii.eqb c "-") eqn:Hm; [|destruct (Ascii.eqb c "+") eqn:Hp].
  - constructor.
    + unfold int_char. rewrite Hm. now rewrite !orb_true_r.
    + apply Htail. destruct cs' as [| c' cs'']; [discriminate H|].
      destruct (digit_value c'); [|discriminate H].
      destruct (int_digits _ _) as [[m rest] |]; [|discriminate H].
      destruct (lskip int_space rest); [discriminate | discriminate H].
  - constructor.
    + unfold int_char. rewrite Hp. now rewrite !orb_true_r.
    + apply Htail. destruct cs' as [| c' cs'']; [discriminate H|].
      destruct (digit_value c'); [|discriminate H].
      destruct (int_digits _ _) as [[m rest] |]; [|discriminate H].
      destruct (lskip int_space rest); [discriminate | discriminate H].
  - apply Htail.
    destruct (digit_value c); [|discriminate H].
    destruct (int_digits _ _) as [[m rest] |]; [|discriminate H].
    destruct (lskip int_space rest); [discriminate | discriminate H].
Qed.


Lemma int_digits_blank (acc : Z) (post : list ascii) :
  Forall (fun c => int_space c = true) post -> int_digits acc post = Some (acc, post).
Proof.
  intros H. destruct H as [| c post Hc _]; [reflexivity|]. cbn.
  destruct (int_space_neutral c Hc) as (-> & -> & _). reflexivity.
Qed.

(** A one-digit string between blanks reads as its digit. *)
Lemma int_of_string_one_digit (s : string) (pre post : list ascii) (c : ascii) (dv : Z) :
  list_ascii_of_string s = (pre ++ [c] ++ post)%list ->
  Forall (fun x => int_space x = true) pre ->
  Forall (fun x => int_space x = true) post ->
  digit_value c = Some dv ->
  int_of_string s = Some dv.
Proof.
  intros Hs Hpre Hpost Hc. unfold int_of_string. rewrite Hs.
  rewrite (lskip_app_all _ _ _ Hpre). cbn [app lskip].
  assert (Hsp : int_space c = false).
  { destruct (int_space c) eqn:E; [|reflexivity].
    destruct (int_space_neutral c E) as (Hd & _). congruence. }
  assert (Hsign : Ascii.eqb c "-" = false /\ Ascii.eqb c "+" = false).
  { revert Hc. clear. each_ascii c; intros H; solve [split; reflexivity | discriminate H]. }
  destruct Hsign as [Hm Hp]. rewrite Hsp, Hm, Hp, Hc.
  rewrite (int_digits_blank _ _ Hpost), (lskip_all _ _ Hpost). reflexivity.
Qed.

(** On a string that [int(...)] accepts, stripping and lowercasing only
    remove blanks that [int(...)] skips as well. *)
Lemma strip_lower_of_int_string (s : string) (n : Z) :
  int_of_string s = Some n ->
  exists pre core post,
    list_ascii_of_string s = (pre ++ core ++ post)%list /\
    Forall (fun c => int_space c = true) pre /\
    Forall (fun c => int_space c = true) post /\
    Forall (fun c => int_char c = true) core /\
    py_lower (py_strip s) = string_of_list_ascii core.
Proof.
  intros H. pose proof (int_of_string_chars s n H) as Hall.
  destruct (lskip_split strip_space (list_ascii_of_string s)) as (pre & Heq1 & Hpre).
  destruct (rskip_split strip_space (lskip strip_space (list_ascii_of_string s)))
    as (post & Heq2 & Hpost).
  set (core := rskip strip_space (lskip strip_space (list_ascii_of_string s))) in *.
  assert (Hs : list_ascii_of_string s = (pre ++ core ++ post)%list).
  { rewrite Heq1 at 1. now rewrite Heq2 at 1. }
  rewrite Hs in Hall. apply Forall_app in Hall as [Hapre Hall].
  apply Forall_app in Hall as [Hacore Hapost].
  exists pre, core, post. repeat apply conj; try assumption.
  - apply Forall_forall. intros c Hin.
    apply int_char_blank; [eapply Forall_forall in Hapre | eapply Forall_forall in Hpre]; eauto.
  - apply Forall_forall. intros c Hin.
    apply int_char_blank; [eapply Forall_forall in Hapost | eapply Forall_forall in Hpost]; eauto.
  - unfold py_lower, py_strip. fold core.
    rewrite list_ascii_of_string_of_list_ascii. f_equal.
    clear - Hacore. induction Hacore as [| c l Hc _ IH]; cbn; [reflexivity|].
    now rewrite (int_char_lower c Hc), IH.
Qed.

(** When [int(...)] accepts a string that, stripped and lowercased, is one
    of the six words, the word is "1" or "0" and the integer is 1 or 0. *)
Lemma word_of_int_string (s : string) (n : Z) :
  int_of_string s = Some n ->
  (word_in (py_lower (py_strip s)) true_words = true -> n = 1) /\
  (word_in (py_lower (py_strip s)) false_words = true -> n = 0).
Proof.
  intros H.
  destruct (strip_lower_of_int_string s n H) as (pre & core & post & Hs & Hpre & Hpost & Hcore & ->).
  assert (Hword : forall w : string,
            String.eqb (string_of_list_ascii core) w = true ->
            core = list_ascii_of_string w).
  { intros w Hw. apply String.eqb_eq in Hw. rewrite <- Hw.
    now rewrite list_ascii_of_string_of_list_ascii. }
  unfold word_in, true_words, false_words. cbn [existsb]. split; intros Hw.
  - apply orb_prop in Hw as [Hw | Hw]; [|apply orb_prop in Hw as [Hw | Hw]].
    + apply Hword in Hw. subst core. exfalso. clear - Hcore.
      inversion Hcore as [| ? ? Hc _]. discriminate Hc.
    + apply Hword in Hw. subst core.
      pose proof (int_of_string_one_digit s pre post "1"%char 1 Hs Hpre Hpost eq_refl) as H1.
      congruence.
    + apply orb_prop in Hw as [Hw | Hw]; [|discriminate Hw].
      apply Hword in Hw. subst core. exfalso. clear - Hcore.
      inversion Hcore as [| ? ? Hc _]. discriminate Hc.
  - apply orb_prop in Hw as [Hw | Hw]; [|apply orb_prop in Hw as [Hw | Hw]].
    + apply Hword in Hw. subst core. exfalso. clear - Hcore.
      inversion Hcore as [| ? ? Hc _]. discriminate Hc.
    + apply Hword in Hw. subst core.
      pose proof (int_of_string_one_digit s pre post "0"%char 0 Hs Hpre Hpost eq_refl) as H1.
      congruence.
    + apply orb_prop in Hw as [Hw | Hw]; [|discriminate Hw].
      apply Hword in Hw. subst core. exfalso. clear - Hcore.
      inversion Hcore as [| ? ? Hc _]. discriminate Hc.
Qed.

(** [get_int] returns an integer only when [int(...)] accepts the stored
    value. *)
Lemma get_int_some (self : PyRecord) (d : gmap string value) (key : string)
    (raise_error : bool) (n : Z) :
  r_data self = VDict d ->
  Record_get_int self key raise_error = Ok (Some n) ->
  exists v, d !! key = Some v /\ is_None v = false /\ py_int v = Ok n.
Proof.
  intros Hd. unfold Record_get_int, dict_get. rewrite Hd. cbn [mbind result_bind].
  destruct (d !! key) as [v |] eqn:Hk; cbn [default from_option id]; [|discriminate].
  destruct (is_None v) eqn:Hv; [discriminate|].
  intros H. exists v. repeat split; try assumption.
  destruct (py_int v) as [m | e]; cbn in H.
  - congruence.
  - unfold conversion_failed in H. destruct raise_error; [|discriminate H].
    destruct (py_str_total v) as [s Hs]. rewrite Hs in H. discriminate H.
Qed.

(** When [int(...)] accepts a stored value, [get_bool] gives whether the
    integer is non-zero. *)
Lemma get_bool_of_int_value (self : PyRecord) (d : gmap string value)
    (key : string) (raise_error : bool) (v : value) (n : Z) :
  r_data self = VDict d -> d !! key = Some v -> is_None v = false ->
  py_int v = Ok n ->
  Record_get_bool self key raise_error = Ok (Some (negb (n =? 0))).
Proof.
  intros Hd Hk Hv Hn.
  destruct v as [| b | k | f | s | l | m]; try discriminate Hv.
  - rewrite (get_bool_stored _ _ _ _ _ Hd Hk eq_refl). cbn in Hn.
    injection Hn as <-. destruct b; reflexivity.
  - apply (get_bool_accepted _ _ _ _ _ n Hd Hk eq_refl I Hn).
  - apply (get_bool_accepted _ _ _ _ _ n Hd Hk eq_refl I Hn).
  - cbn in Hn. destruct (int_of_string s) as [k |] eqn:Hp; [|discriminate Hn].
    injection Hn as ->.
    destruct (word_of_int_string s n Hp) as [Ht Hf].
    destruct (word_in (py_lower (py_strip s)) true_words) eqn:Et.
    + rewrite (get_bool_stored _ _ _ _ _ Hd Hk eq_refl), Et.
      rewrite (Ht eq_refl). reflexivity.
    + destruct (word_in (py_lower (py_strip s)) false_words) eqn:Ef.
      * rewrite (get_bool_stored _ _ _ _ _ Hd Hk eq_refl), Et, Ef.
        rewrite (Hf eq_refl). reflexivity.
      * apply (get_bool_accepted _ _ _ _ _ n Hd Hk eq_refl (conj Et Ef)).
        cbn. now rewrite Hp.
  - cbn in Hn. discriminate Hn.
  - cbn in Hn. discriminate Hn.
Qed.

(** X10: whenever [get_int] returns an integer for a key, [get_bool]
    returns for that key whether the integer is non-zero, in either
    mode: the two getters never disagree, also on booleans and on the
    words "1" and "0". *)
Theorem get_bool_agrees_with_get_int (self : PyRecord) (d : gmap string value)
    (key : string) (strict_int strict_bool : bool) (n : Z) :
  r_data self = VDict d ->
  Record_get_int self key strict_int = Ok (Some n) ->
  Record_get_bool self key strict_bool = Ok (Some (negb (n =? 0))).
Proof.
  intros Hd Hint.
  destruct (get_int_some self d key strict_int n Hd Hint) as (v & Hk & Hv & Hn).
  exact (get_bool_of_int_value self d key strict_bool v n Hd Hk Hv Hn).
Qed.


(** ** What the operations send *)

Lemma silent_issues_only {A} (P : Request -> Prop) (m : IO A) :
  silent m -> issues_only P m.
Proof. intros Hm w. exists []. rewrite Hm, app_nil_r. split; [reflexivity | constructor]. Qed.

Lemma issues_only_bind {A B} (P : Request -> Prop) (m : IO A) (k : A -> IO B) :
  issues_only P m -> (forall a, silent (k a)) -> issues_only P (m ≫= k).
Proof.
  intros Hm Hk w. destruct (Hm w) as (new & Hw & Hall).
  exists new. unfold mbind, IO_bind.
  destruct (m w) as [[a | e] w']; cbn in *; subst w'; [rewrite Hk|]; auto.
Qed.

Lemma silent_then_issues_only {A B} (P : Request -> Prop) (m : IO A) (k : A -> IO B) :
  silent m -> (forall a, issues_only P (k a)) -> issues_only P (m ≫= k).
Proof.
  intros Hm Hk w. specialize (Hm w). unfold mbind, IO_bind.
  destruct (m w) as [[a | e] w']; cbn in *; subst w'.
  - apply Hk.
  - exists []. rewrite app_nil_r. split; [reflexivity | constructor].
Qed.

Lemma issues_only_fmap {A B} (P : Request -> Prop) (f : A -> B) (m : IO A) :
  issues_only P m -> issues_only P (f <$> m).
Proof.
  intros Hm w. destruct (Hm w) as (new & Hw & Hall).
  exists new. unfold fmap, IO_fmap.
  destruct (m w) as [[a | e] w']; cbn in *; auto.
Qed.

(** [__request__] on a path under [/collections]. *)
Lemma request_issues_collections (self : CocoBaseClient) (path : string)
    (method : HttpMethod) (data : option value) :
  issues_only collections_request (__request__ self ("/collections" ++ path) method data).
Proof.
  intros w. destruct method.
  - rewrite request_get. eexists [_]. split; [reflexivity|].
    constructor; [|constructor]. split; [left; reflexivity | exists path; reflexivity].
  - rewrite request_post. eexists [_]. split; [reflexivity|].
    constructor; [|constructor]. split; [right; reflexivity | exists path; reflexivity].
  - rewrite request_rejects by auto. exists []. rewrite app_nil_r.
    split; [reflexivity | constructor].
  - rewrite request_rejects by auto. exists []. rewrite app_nil_r.
    split; [reflexivity | constructor].
Qed.

Ltac routed :=
  cbv zeta;
  repeat first
    [ apply silent_issues_only; solve [quiet]
    | apply issues_only_bind;
        [eapply (request_issues_collections _ _) | intros ?; solve [quiet]]
    | apply silent_then_issues_only; [solve [quiet] | intros ?]
    | match goal with
      | |- issues_only _ (match ?x with _ => _ end) => destruct x
      end ].

(** X11: whatever its arguments and the answers of the service, an
    operation keeps the requests issued before it and issues only GET and
    POST requests on paths under [/collections] of the base URL; no
    DELETE and no PATCH request ever leaves the client. *)
Theorem operations_issue_collections_requests (self : CocoBaseClient) (c : call) :
  issues_only collections_request (perform self c).
Proof.
  destruct c as [n u | i n u | i | i f | i q | i x | i x | i x f];
    cbn [perform]; apply issues_only_fmap.
  - unfold create_collection. cbv zeta. apply issues_only_bind.
    + apply (request_issues_collections self "").
    + intros ?. quiet.
  - unfold update_collection. routed.
  - unfold delete_collection. routed.
  - unfold create_document.
    destruct (is_None i); [apply silent_issues_only; quiet|].
    destruct (negb (is_dict f)); [apply silent_issues_only; quiet|].
    destruct i as [| b | k | fl | s | l | m];
      try (apply silent_issues_only; intros w; reflexivity).
    apply (issues_only_bind _
             (__request__ self ("/collections" ++ ("/documents?collection=" ++ s)) _ _)).
    + apply request_issues_collections.
    + intros ?. quiet.
  - unfold list_documents. routed.
  - unfold get_document. routed.
  - unfold delete_document. routed.
  - unfold update_document. routed.
Qed.


(** ** What the operations return *)

(** The end of a status chain: past the three known errors, the success
    branch or the fall off the end. *)
Lemma status_chain_inv {A} (req : Response) (success : Z) (body : IO (option A))
    (w w' : list Request) (o : option A) :
  (forall w0 o0 w1, body w0 = (Ok o0, w1) -> w1 = w0 /\ o0 <> None) ->
  match known_error req with
  | Some e => raise e
  | None => if status_code req =? success then body else mret None
  end w = (Ok o, w') ->
  w' = w /\ (o = None <-> (status_code req =? success) = false).
Proof.
  intros Hbody H. destruct (known_error req); [discriminate H|].
  destruct (status_code req =? success).
  - destruct (Hbody _ _ _ H) as [-> Ho]. split; [reflexivity|]. split; [done | discriminate].
  - injection H as <- <-. done.
Qed.

(** The status chain of the two operations that return the parsed body:
    the result is [None] off the success status, and on it when the body
    is [null]. *)
Lemma body_chain_inv (req : Response) (success : Z) (w w' : list Request)
    (o : option value) :
  match known_error req with
  | Some e => raise e
  | None =>
      if status_code req =? success then j ← lift (Response_json req); mret (Some j)
      else mret None
  end w = (Ok o, w') ->
  w' = w /\
  (ret_of ret_json o = RetNone <->
     (status_code req =? success) = false \/ json_body req = Some VNone).
Proof.
  intros H. destruct (known_error req); [discriminate H|].
  destruct (status_code req =? success).
  - unfold mbind, IO_bind, lift, Response_json in H.
    destruct (json_body req) as [j |]; [|discriminate H].
    injection H as <- <-. split; [reflexivity|]. cbn [ret_of].
    split.
    + intros Hj. right. destruct j; try discriminate Hj. reflexivity.
    + intros [Hs | Hj]; [discriminate Hs|]. injection Hj as ->. reflexivity.
  - injection H as <- <-. split; [reflexivity|]. split; [now left | reflexivity].
Qed.

(** A result built by a constructor other than [RetNone] is [None] only
    when there is none. *)
Lemma ret_of_RetNone {A} (f : A -> retval) (o : option A) (P Q : Prop) :
  (forall a, f a <> RetNone) -> (o = None <-> P) ->
  (ret_of f o = RetNone <-> P \/ (false = true /\ Q)).
Proof.
  intros Hf Hiff. destruct o as [a |]; cbn [ret_of].
  - split; [intros H; now destruct (Hf a) |].
    intros [HP | [Hff _]]; [|discriminate Hff].
    apply Hiff in HP. discriminate HP.
  - split; [intros _; left; now apply Hiff | reflexivity].
Qed.

Lemma record_body_returns (req : Response) (w0 : list Request) (o0 : option PyRecord)
    (w1 : list Request) :
  (j ← lift (Response_json req); r ← lift (Record_init j); mret (Some r)) w0 = (Ok o0, w1) ->
  w1 = w0 /\ o0 <> None.
Proof.
  unfold mbind, IO_bind, lift. destruct (Response_json req) as [j |]; [|discriminate].
  destruct (Record_init j); [|discriminate].
  intros H. injection H as <- <-. done.
Qed.

Lemma records_body_returns (req : Response) (w0 : list Request)
    (o0 : option (list PyRecord)) (w1 : list Request) :
  (j ← lift (Response_json req);
   docs ← lift (py_iter j);
   rs ← lift (mapM Record_init docs);
   mret (Some rs)) w0 = (Ok o0, w1) ->
  w1 = w0 /\ o0 <> None.
Proof.
  unfold mbind at 1 2 3, IO_bind, lift.
  destruct (Response_json req) as [j |]; [|discriminate].
  destruct (py_iter j) as [docs |]; [|discriminate].
  destruct (mapM Record_init docs); [|discriminate].
  intros H. injection H as <- <-. done.
Qed.

Lemma fmap_ok_inv {A B} (f : A -> B) (m : IO A) (w w' : list Request) (b : B) :
  (f <$> m) w = (Ok b, w') -> exists a, m w = (Ok a, w') /\ b = f a.
Proof.
  unfold fmap, IO_fmap. destruct (m w) as [[a | e] w1]; [|discriminate].
  intros H. injection H as <- <-. eauto.
Qed.

(** X12: an operation that returns without an error has issued exactly
    one request, and what it returns is [None] exactly when the status of
    the response is not the operation's success status, or when the
    operation is one of the two that return the parsed body
    ([create_collection], [update_collection]) and the body is [null]. *)
Theorem result_only_on_success (self : CocoBaseClient) (c : call) (w w' : list Request)
    (out : retval) :
  perform self c w = (Ok out, w') ->
  exists rq,
    w' = (w ++ [rq])%list /\
    (out = RetNone <->
       is_success c (status_code (service w rq)) = false \/
       (returns_body c = true /\ json_body (service w rq) = Some VNone)).
Proof.
  intros H.
  destruct c as [n u | i n u | i | i f | i q | i x | i x | i x f];
    cbn [perform] in H; apply fmap_ok_inv in H as (o & H & ->);
    cbn [is_success returns_body].
  - unfold create_collection in H. cbv zeta in H.
    unfold mbind at 1, IO_bind at 1 in H. rewrite request_post in H.
    apply body_chain_inv in H as [-> Hiff].
    eexists. split; [reflexivity|]. rewrite Hiff.
    split; (intros [Hs | Hj]; [now left | right]); [done | apply Hj].
  - unfold update_collection in H.
    destruct (is_None i); [discriminate H|].
    destruct (is_None u && is_None n); [discriminate H|]. cbv zeta in H.
    destruct (py_str_total i) as [s Hs]. rewrite Hs in H.
    change (lift (Ok s) ≫= ?k) with (k s) in H.
    unfold mbind at 1, IO_bind at 1 in H. rewrite request_post in H.
    apply body_chain_inv in H as [-> Hiff].
    eexists. split; [reflexivity|]. rewrite Hiff.
    split; (intros [Hs' | Hj]; [now left | right]); [done | apply Hj].
  - unfold delete_collection in H.
    destruct (is_None i); [discriminate H|].
    destruct (py_str_total i) as [s Hs]. rewrite Hs in H.
    change (lift (Ok s) ≫= ?k) with (k s) in H.
    unfold mbind at 1, IO_bind at 1 in H. rewrite request_post in H.
    apply (status_chain_inv _ _ (mret (Some true))) in H as [-> Hiff].
    + eexists. split; [reflexivity|]. now apply ret_of_RetNone.
    + intros w0 o0 w1 Hb. injection Hb as <- <-. done.
  - unfold create_document in H.
    destruct (is_None i); [discriminate H|].
    destruct (negb (is_dict f)); [discriminate H|].
    destruct i as [| b | k | fl | s | l | m]; try discriminate H.
    change (lift (str_concat ?a (VStr s)) ≫= ?k) with (k (a ++ s)) in H.
    unfold mbind at 1, IO_bind at 1 in H. rewrite request_post in H.
    apply status_chain_inv in H as [-> Hiff]; [|apply record_body_returns].
    eexists. split; [reflexivity|]. now apply ret_of_RetNone.
  - unfold list_documents in H.
    destruct (is_None i); [discriminate H|].
    destruct (py_str_total i) as [s Hs].
    destruct q as [[b | v] |]; try discriminate H; rewrite Hs in H;
      change (lift (Ok s) ≫= ?k) with (k s) in H; cbv zeta in H;
      unfold mbind at 1, IO_bind at 1 in H; rewrite request_get in H;
      (apply status_chain_inv in H as [-> Hiff]; [|apply records_body_returns]);
      eexists; (split; [reflexivity|]); now apply ret_of_RetNone.
  - unfold get_document in H.
    destruct (is_None i); [discriminate H|]. destruct (is_None x); [discriminate H|].
    destruct (py_str_total i) as [s Hs]. destruct (py_str_total x) as [t Ht].
    rewrite Hs in H. change (lift (Ok s) ≫= ?k) with (k s) in H.
    rewrite Ht in H. change (lift (Ok t) ≫= ?k) with (k t) in H.
    unfold mbind at 1, IO_bind at 1 in H. rewrite request_get in H.
    apply status_chain_inv in H as [-> Hiff]; [|apply record_body_returns].
    eexists. split; [reflexivity|]. now apply ret_of_RetNone.
  - unfold delete_document in H.
    destruct (is_None i); [discriminate H|]. destruct (is_None x); [discriminate H|].
    destruct (py_str_total i) as [s Hs]. destruct (py_str_total x) as [t Ht].
    rewrite Hs in H. change (lift (Ok s) ≫= ?k) with (k s) in H.
    rewrite Ht in H. change (lift (Ok t) ≫= ?k) with (k t) in H.
    unfold mbind at 1, IO_bind at 1 in H.
    rewrite request_rejects in H by auto. discriminate H.
  - unfold update_document in H.
    destruct (is_None i); [discriminate H|]. destruct (is_None x); [discriminate H|].
    destruct (negb (is_dict f)); [discriminate H|].
    destruct (py_str_total i) as [s Hs]. destruct (py_str_total x) as [t Ht].
    rewrite Hs in H. change (lift (Ok s) ≫= ?k) with (k s) in H.
    rewrite Ht in H. change (lift (Ok t) ≫= ?k) with (k t) in H.
    unfold mbind at 1, IO_bind at 1 in H.
    rewrite request_rejects in H by auto. discriminate H.
Qed.


(** [mapM] over [result] succeeds exactly when every item does, and keeps
    the order of the items. *)
Lemma mapM_result_Forall2 {A B} (f : A -> result B) (l : list A) (rs : list B) :
  mapM f l = Ok rs <-> Forall2 (fun a b => f a = Ok b) l rs.
Proof.
  revert rs. induction l as [| a l IH]; intros rs; cbn.
  - split.
    + intros H. injection H as <-. constructor.
    + intros H. inversion H. reflexivity.
  - split.
    + destruct (f a) as [b | e] eqn:Hf; cbn; [|discriminate].
      destruct (mapM f l) as [bs | e] eqn:Hm; cbn; [|discriminate].
      intros H. injection H as <-. constructor; [exact Hf | now apply IH].
    + intros H. inversion H as [| ? b ? bs Hf Hrest]; subst.
      rewrite Hf. cbn. apply IH in Hrest. rewrite Hrest. reflexivity.
Qed.

Lemma mapM_result_fails {A B} (f : A -> result B) (l : list A) :
  Exists (fun a => exists e, f a = Raise e) l -> exists e, mapM f l = Raise e.
Proof.
  induction l as [| a l IH]; intros H; [inversion H|]. cbn.
  destruct (f a) as [b | e] eqn:Hf; cbn; [|eauto].
  inversion H as [? ? [e He] | ? ? Hrest]; subst; [congruence|].
  destruct (IH Hrest) as [e ->]. cbn. eauto.
Qed.

(** X13: [get_document] issues one GET on
    [/collections/<collection>/documents/<document>]; when the answer is
    200 with a document blob, the record it returns gives back, through
    [get], every entry of the blob's [data] mapping. *)
Theorem get_document_round_trip (self : CocoBaseClient) (cid did : string)
    (w : list Request) (blob d : gmap string value) (t : datetime) (dflt : value) :
  let rq := mkRequest HttpMethod_get
              (BASEURL ++ "/collections/" ++ cid ++ "/documents/" ++ did)
              [("x-api-key", api_key self)] None in
  status_code (service w rq) = 200 ->
  json_body (service w rq) = Some (VDict blob) ->
  blob !! "data" = Some (VDict d) ->
  fromtimestamp (default (VInt 0) (blob !! "created_at")) = Ok t ->
  exists r,
    get_document self (VStr cid) (VStr did) w = (Ok (Some r), (w ++ [rq])%list) /\
    r_data r = VDict d /\
    forall key v, d !! key = Some v -> Record_get r key dflt = Ok v.
Proof.
  intros rq Hst Hjs Hdata Ht.
  pose proof (Record_init_dict blob t Ht) as Hr. rewrite Hdata in Hr.
  cbn [default from_option id] in Hr.
  exists (mkRecord (VDict d) (default (VStr "") (blob !! "id"))
            (default (VStr "") (blob !! "collection_id")) t
            (default (VDict ∅) (blob !! "collection"))).
  split; [|split; [reflexivity|]];
    [|intros key v Hk; unfold Record_get, dict_get; cbn; now rewrite Hk].
  unfold get_document. cbn [is_None py_str].
  change (lift (Ok cid) ≫= ?k) with (k cid).
  change (lift (Ok did) ≫= ?k) with (k did).
  unfold mbind at 1, IO_bind at 1. rewrite request_get.
  change (mkRequest HttpMethod_get _ _ None) with rq.
  unfold known_error, Response_json. rewrite Hst, Hjs. cbn.
  unfold lift, mbind, IO_bind. rewrite Hr. reflexivity.
Qed.

(** X14: [create_document] issues one POST on
    [/collections/documents?collection=<collection>] whose body is the
    fields under the single key [data]; when the answer is 201 with a
    document blob, the record returned is built from the answer, not from
    the fields that were sent. *)
Theorem create_document_sends_fields (self : CocoBaseClient) (cid : string)
    (fields : gmap string value) (w : list Request) :
  let rq := mkRequest HttpMethod_post
              (BASEURL ++ "/collections/documents?collection=" ++ cid)
              [("x-api-key", api_key self)]
              (Some (VDict {["data" := VDict fields]})) in
  snd (create_document self (VStr cid) (VDict fields) w) = (w ++ [rq])%list /\
  forall (blob : gmap string value) (t : datetime),
    status_code (service w rq) = 201 ->
    json_body (service w rq) = Some (VDict blob) ->
    fromtimestamp (default (VInt 0) (blob !! "created_at")) = Ok t ->
    exists r,
      fst (create_document self (VStr cid) (VDict fields) w) = Ok (Some r) /\
      r_data r = default (VDict ∅) (blob !! "data") /\
      r_id r = default (VStr "") (blob !! "id").
Proof.
  intros rq.
  assert (Hrun : create_document self (VStr cid) (VDict fields) w =
                 match known_error (service w rq) with
                 | Some e => raise e
                 | None =>
                     if status_code (service w rq) =? 201
                     then j ← lift (Response_json (service w rq));
                          r ← lift (Record_init j); mret (Some r)
                     else mret None
                 end (w ++ [rq])%list) by reflexivity.
  rewrite Hrun. split.
  - destruct (known_error _); [reflexivity|].
    destruct (_ =? 201); [|reflexivity].
    unfold lift, mbind, IO_bind. destruct (Response_json _) as [j |]; [|reflexivity].
    destruct (Record_init j); reflexivity.
  - intros blob t Hst Hjs Ht. eexists.
    unfold known_error, Response_json. rewrite Hst, Hjs. cbn.
    unfold lift, mbind, IO_bind. rewrite (Record_init_dict _ _ Ht). cbn.
    repeat split.
Qed.

(** X15: [list_documents] issues one GET on
    [/collections/<collection>/documents], followed by [?] and the built
    query when a builder is given; on a 200 answer that is a JSON list it
    returns one record per item, in the order of the list, and if one
    item cannot be made a record the whole call raises. *)
Theorem list_documents_keeps_order (self : CocoBaseClient) (cid : string)
    (q : option QueryBuilder) (w : list Request) (docs : list value) :
  let rq := mkRequest HttpMethod_get
              (BASEURL ++ "/collections/" ++ cid ++
               match q with
               | Some b => "/documents?" ++ build b
               | None => "/documents"
               end)
              [("x-api-key", api_key self)] None in
  status_code (service w rq) = 200 ->
  json_body (service w rq) = Some (VList docs) ->
  (forall rs, Forall2 (fun doc r => Record_init doc = Ok r) docs rs ->
     list_documents self (VStr cid) (IsBuilder <$> q) w = (Ok (Some rs), (w ++ [rq])%list)) /\
  (Exists (fun doc => exists e, Record_init doc = Raise e) docs ->
     exists e, list_documents self (VStr cid) (IsBuilder <$> q) w =
                 (Raise e, (w ++ [rq])%list)).
Proof.
  intros rq Hst Hjs.
  assert (Hrun : list_documents self (VStr cid) (IsBuilder <$> q) w =
                 match mapM Record_init docs with
                 | Ok rs => (Ok (Some rs), (w ++ [rq])%list)
                 | Raise e => (Raise e, (w ++ [rq])%list)
                 end).
  { unfold list_documents. cbn [is_None py_str].
    destruct q as [b |]; cbn [fmap option_fmap option_map];
      change (lift (Ok cid) ≫= ?k) with (k cid); cbv zeta;
      unfold mbind at 1, IO_bind at 1; rewrite request_get;
      change (mkRequest HttpMethod_get _ _ None) with rq;
      unfold known_error, Response_json; rewrite Hst, Hjs; cbn;
      unfold lift, mbind, IO_bind; cbn [py_iter];
      destruct (mapM Record_init docs); reflexivity. }
  rewrite Hrun. split.
  - intros rs Hrs. apply mapM_result_Forall2 in Hrs. now rewrite Hrs.
  - intros Hex. destruct (mapM_result_fails _ _ Hex) as [e ->]. eauto.
Qed.


(** ** Request bodies and endpoints *)

Lemma post_then_silent {A} (self : CocoBaseClient) (url : string) (data : option value)
    (k : Response -> IO A) (w : list Request) :
  (forall a, silent (k a)) ->
  snd ((__request__ self url HttpMethod_post data ≫= k) w) =
    (w ++ [mkRequest HttpMethod_post
             (BASEURL ++ (if py_startswith url "/" then url else "/" ++ url))
             [("x-api-key", api_key self)] data])%list.
Proof.
  intros Hk. unfold mbind, IO_bind. rewrite request_post. apply Hk.
Qed.

(** X16: [create_collection] posts to [/collections] a body that holds
    the name under [name], the webhook under [webhook_url] only when one
    is given, and no other key. *)
Theorem create_collection_body (self : CocoBaseClient) (n u : value) (w : list Request) :
  exists body : gmap string value,
    snd (create_collection self n u w) =
      (w ++ [mkRequest HttpMethod_post (BASEURL ++ "/collections")
               [("x-api-key", api_key self)] (Some (VDict body))])%list /\
    body !! "name" = Some n /\
    body !! "webhook_url" = (if is_None u then None else Some u) /\
    forall k, k <> "name" -> k <> "webhook_url" -> body !! k = None.
Proof.
  eexists. split.
  - unfold create_collection. cbv zeta. rewrite post_then_silent; [reflexivity|].
    intros ?. quiet.
  - destruct (is_None u); repeat apply conj; intros; by simplify_map_eq.
Qed.

(** X17: [update_collection] with neither a name nor a webhook raises
    before anything is sent; otherwise it posts to
    [/collections/<collection>] a body with exactly the fields that were
    given. *)
Theorem update_collection_body (self : CocoBaseClient) (cid : string) (n u : value)
    (w : list Request) :
  (is_None u && is_None n = true ->
     update_collection self (VStr cid) n u w =
       (Raise (CocobaseError
                 "At least one of webhook_url or collection_name must be provided."), w)) /\
  (is_None u && is_None n = false ->
     exists body : gmap string value,
       snd (update_collection self (VStr cid) n u w) =
         (w ++ [mkRequest HttpMethod_post (BASEURL ++ "/collections/" ++ cid)
                  [("x-api-key", api_key self)] (Some (VDict body))])%list /\
       body !! "name" = (if is_None n then None else Some n) /\
       body !! "webhook_url" = (if is_None u then None else Some u) /\
       forall k, k <> "name" -> k <> "webhook_url" -> body !! k = None).
Proof.
  unfold update_collection. cbn [is_None]. split; intros Hboth; rewrite Hboth.
  - reflexivity.
  - cbv zeta. cbn [py_str]. change (lift (Ok cid) ≫= ?k) with (k cid).
    eexists. split.
    + rewrite post_then_silent; [reflexivity|]. intros ?. quiet.
    + destruct (is_None u), (is_None n); try discriminate Hboth;
        repeat apply conj; intros; by simplify_map_eq.
Qed.

(** X18: [delete_collection] issues a POST without a body on
    [/collections/<collection>], the URL and the method of
    [update_collection]; it returns [True] on 204 only. *)
Theorem delete_collection_posts (self : CocoBaseClient) (cid : string) (w : list Request) :
  let rq := mkRequest HttpMethod_post (BASEURL ++ "/collections/" ++ cid)
              [("x-api-key", api_key self)] None in
  snd (delete_collection self (VStr cid) w) = (w ++ [rq])%list /\
  (status_code (service w rq) = 204 ->
     fst (delete_collection self (VStr cid) w) = Ok (Some true)) /\
  (forall b, fst (delete_collection self (VStr cid) w) = Ok (Some b) ->
     status_code (service w rq) = 204 /\ b = true).
Proof.
  intros rq.
  assert (Hrun : delete_collection self (VStr cid) w =
                 match known_error (service w rq) with
                 | Some e => raise e
                 | None =>
                     if status_code (service w rq) =? 204 then mret (Some true)
                     else mret None
                 end (w ++ [rq])%list) by reflexivity.
  rewrite Hrun. repeat apply conj.
  - destruct (known_error _); [reflexivity|]. destruct (_ =? 204); reflexivity.
  - intros Hst. unfold known_error. rewrite Hst. reflexivity.
  - intros b. destruct (known_error _); [discriminate|].
    destruct (Z.eqb_spec (status_code (service w rq)) 204) as [He | Hne]; cbn.
    + intros H. injection H as <-. done.
    + discriminate.
Qed.


(** X20: [delete_document] never issues a request and never returns:
    whatever its identifiers, it raises and leaves the requests as they
    were; with both identifiers present the error is the [ValueError] of
    [__request__]. *)
Theorem delete_document_always_raises (self : CocoBaseClient) (i x : value)
    (w : list Request) :
  (exists e, delete_document self i x w = (Raise e, w)) /\
  (is_None i = false -> is_None x = false ->
     delete_document self i x w = (Raise invalid_method, w)).
Proof.
  unfold delete_document. split.
  - destruct (is_None i); [eauto|]. destruct (is_None x); [eauto|].
    destruct (py_str_total i) as [s ->]. destruct (py_str_total x) as [t ->]. eauto.
  - intros -> ->.
    destruct (py_str_total i) as [s ->]. destruct (py_str_total x) as [t ->].
    reflexivity.
Qed.

Lemma startswith_slash (url : string) : py_startswith ("/" ++ url) "/" = true.
Proof. destruct url; reflexivity. Qed.

Lemma startswith_slash_inv (url : string) :
  py_startswith url "/" = true -> exists path, url = "/" ++ path.
Proof.
  unfold py_startswith. destruct url as [| c url']; [cbn; discriminate|].
  cbn [String.prefix]. destruct (ascii_dec "/" c) as [<- |]; [|discriminate]. eauto.
Qed.

(** X21: a path given to [__request__] without its leading [/] is
    requested as if it had one, and the URL of the request is the base
    URL followed by a path that starts with [/]. *)
Theorem request_path_normalised (self : CocoBaseClient) (url : string)
    (method : HttpMethod) (data : option value) (w : list Request) :
  (py_startswith url "/" = false ->
     __request__ self url method data w = __request__ self ("/" ++ url) method data w) /\
  (method = HttpMethod_get \/ method = HttpMethod_post ->
     exists rq path,
       __request__ self url method data w = (Ok (service w rq), (w ++ [rq])%list) /\
       q_method rq = method /\
       q_url rq = BASEURL ++ "/" ++ path /\
       (path = url \/ url = "/" ++ path)).
Proof.
  split.
  - intros Hs. unfold __request__. rewrite Hs, startswith_slash. reflexivity.
  - intros Hm. destruct (py_startswith url "/") eqn:Hs.
    + destruct (startswith_slash_inv url Hs) as [path ->].
      destruct Hm as [-> | ->]; [rewrite request_get | rewrite request_post];
        rewrite startswith_slash; eexists _, path; repeat apply conj;
        try reflexivity; now right.
    + destruct Hm as [-> | ->]; [rewrite request_get | rewrite request_post];
        rewrite Hs; eexists _, url; repeat apply conj; try reflexivity; now left.
Qed.


(** ** Integers through their decimal text *)

Lemma int_digits_uint_pos (d : Decimal.uint) :
  forall p : positive,
    int_digits (Z.pos p) (list_ascii_of_string (NilEmpty.string_of_uint d)) =
      Some (Z.pos (Pos.of_uint_acc d p), []).
Proof.
  induction d as [| d IH | d IH | d IH | d IH | d IH | d IH | d IH | d IH | d IH | d IH];
    intros p; [reflexivity | ..];
    cbn [NilEmpty.string_of_uint list_ascii_of_string int_digits Pos.of_uint_acc];
    match goal with
    | |- context [digit_value ?c] =>
        let v := eval vm_compute in (digit_value c) in
        change (digit_value c) with v
    end;
    cbv iota beta;
    match goal with
    | |- _ = Some (Z.pos (Pos.of_uint_acc _ ?q), _) =>
        rewrite <- (IH q); f_equal; lia
    end.
Qed.

Lemma int_digits_uint (d : Decimal.uint) :
  int_digits 0 (list_ascii_of_string (NilEmpty.string_of_uint d)) =
    Some (Z.of_N (Pos.of_uint d), []).
Proof.
  induction d as [| d IH | d IH | d IH | d IH | d IH | d IH | d IH | d IH | d IH | d IH];
    [reflexivity | exact IH | ..];
    cbn [NilEmpty.string_of_uint list_ascii_of_string int_digits Pos.of_uint];
    match goal with
    | |- context [digit_value ?c] =>
        let v := eval vm_compute in (digit_value c) in
        change (digit_value c) with v
    end;
    cbv iota beta;
    match goal with
    | |- int_digits ?z _ = _ =>
        let v := eval vm_compute in z in change z with v
    end;
    rewrite int_digits_uint_pos; reflexivity.
Qed.

(** [int(...)] reads the digits of a non-empty decimal number, with or
    without a minus sign. *)
Lemma int_of_string_uint (d : Decimal.uint) :
  d <> Decimal.Nil ->
  int_of_string (NilEmpty.string_of_uint d) = Some (Z.of_N (Pos.of_uint d)) /\
  int_of_string (String "-" (NilEmpty.string_of_uint d)) = Some (- Z.of_N (Pos.of_uint d)).
Proof.
  intros Hd. pose proof (int_digits_uint d) as H.
  destruct d as [| d | d | d | d | d | d | d | d | d | d]; [done | ..];
    cbn [NilEmpty.string_of_uint list_ascii_of_string int_digits] in H;
    match type of H with
    | context [digit_value ?c] =>
        let v := eval vm_compute in (digit_value c) in
        change (digit_value c) with v in H
    end;
    cbv iota beta in H;
    match type of H with
    | int_digits ?z _ = _ =>
        let v := eval vm_compute in z in change z with v in H
    end;
    unfold int_of_string;
    cbn [NilEmpty.string_of_uint list_ascii_of_string];
    (split;
     [ match goal with
       | |- context [lskip int_space (?c :: ?cs)] =>
           change (lskip int_space (c :: cs)) with (c :: cs)
       end
     | match goal with
       | |- context [lskip int_space (?c :: ?cs)] =>
           change (lskip int_space (c :: cs)) with (c :: cs)
       end ]);
    cbv iota beta;
    repeat match goal with
    | |- context [Ascii.eqb ?a ?b] =>
        let v := eval vm_compute in (Ascii.eqb a b) in
        change (Ascii.eqb a b) with v
    end;
    cbv iota beta;
    match goal with
    | |- context [digit_value ?c] =>
        let v := eval vm_compute in (digit_value c) in
        change (digit_value c) with v
    end;
    cbv iota beta; rewrite H; reflexivity.
Qed.

(** [int_of_string] reads the decimal text of every integer back. *)
Lemma int_of_string_of_int (n : Z) : int_of_string (str_of_int n) = Some n.
Proof.
  unfold str_of_int. destruct n as [| p | p]; [reflexivity | ..]; cbn [Z.to_int].
  - unfold NilZero.string_of_int, NilZero.string_of_uint.
    pose proof (DecimalPos.Unsigned.to_uint_nonnil p) as Hnil.
    destruct (int_of_string_uint (Pos.to_uint p) Hnil) as [H _].
    rewrite DecimalPos.Unsigned.of_to in H.
    destruct (Pos.to_uint p); [done | ..]; exact H.
  - unfold NilZero.string_of_int, NilZero.string_of_uint.
    pose proof (DecimalPos.Unsigned.to_uint_nonnil p) as Hnil.
    destruct (int_of_string_uint (Pos.to_uint p) Hnil) as [_ H].
    rewrite DecimalPos.Unsigned.of_to in H.
    destruct (Pos.to_uint p); [done | ..]; exact H.
Qed.

(** X22: the text that [get_string] gives for a stored integer within the
    digit limit, stored in turn as a string, is read back by [get_int] as
    the same integer, and by [get_bool] as whether it is non-zero. *)
Theorem int_survives_its_text (self : PyRecord) (d : gmap string value)
    (key key' : string) (raise_error : bool) (n : Z) :
  r_data self = VDict d ->
  d !! key = Some (VInt n) ->
  printable_int n = true ->
  exists s r',
    Record_get_string self key raise_error = Ok (Some s) /\
    Record_setitem self key' (VStr s) = Ok r' /\
    Record_get_int r' key' raise_error = Ok (Some n) /\
    Record_get_bool r' key' raise_error = Ok (Some (negb (n =? 0))).
Proof.
  intros Hd Hk _. exists (str_of_int n). eexists.
  assert (Hint : forall r1, r_data r1 = VDict (<[key' := VStr (str_of_int n)]> d) ->
            Record_get_int r1 key' raise_error = Ok (Some n)).
  { intros r1 H1. unfold Record_get_int, dict_get. rewrite H1. cbn.
    rewrite lookup_insert_eq. cbn. rewrite int_of_string_of_int. reflexivity. }
  repeat apply conj.
  - unfold Record_get_string. rewrite Hd, (dict_get_present _ _ _ _ Hk). reflexivity.
  - unfold Record_setitem. rewrite Hd. reflexivity.
  - apply Hint. reflexivity.
  - eapply (get_bool_of_int_value _ _ key' raise_error (VStr (str_of_int n)) n);
      [reflexivity | apply lookup_insert_eq | reflexivity |].
    cbn. now rewrite int_of_string_of_int.
Qed.


(** ** A success status without a JSON body *)

Lemma known_error_on_success (c : call) (resp : Response) :
  is_success c (status_code resp) = true -> known_error resp = None.
Proof.
  intros H. apply known_error_none; intros He; rewrite He in H; destruct c; discriminate H.
Qed.

(** X23: when the answer has the operation's success status but its body
    is not JSON, the five operations that parse the body raise the
    decoding error of [json()], after their request; [delete_collection],
    which does not read the body, returns [True]. *)
Theorem success_without_json (self : CocoBaseClient) (c : call) (w : list Request)
    (resp : Response) :
  args_ok c = true -> via_get_or_post c = true ->
  (forall rq, service w rq = resp) ->
  is_success c (status_code resp) = true ->
  json_body resp = None ->
  fst (perform self c w) =
    match c with
    | DeleteCollection _ => Ok (RetBool true)
    | _ => Raise (Builtin BJSONDecodeError)
    end.
Proof.
  intros Hargs Hvia Hsvc Hsucc Hjs.
  pose proof (known_error_on_success c resp Hsucc) as Herr.
  destruct c as [n u | i n u | i | i f | i q | i x | i x | i x f];
    try discriminate Hvia; cbn in Hargs, Hsucc.
  - unfold perform, create_collection, fmap, IO_fmap, mbind, IO_bind.
    cbv zeta. rewrite request_post, Hsvc, Herr, Hsucc.
    unfold lift, Response_json. rewrite Hjs. reflexivity.
  - unfold perform, update_collection, fmap, IO_fmap, mbind, IO_bind.
    destruct (is_None i); [discriminate|].
    destruct (is_None u && is_None n); [discriminate|]. cbv zeta.
    destruct (py_str_total i) as [s ->]. cbn [lift].
    rewrite request_post, Hsvc, Herr, Hsucc.
    unfold lift, Response_json. rewrite Hjs. reflexivity.
  - unfold perform, delete_collection, fmap, IO_fmap, mbind, IO_bind.
    destruct (is_None i); [discriminate|].
    destruct (py_str_total i) as [s ->]. cbn [lift].
    rewrite request_post, Hsvc, Herr, Hsucc. reflexivity.
  - unfold perform, create_document, fmap, IO_fmap, mbind, IO_bind.
    destruct i; try discriminate. destruct f; try discriminate.
    cbn [is_None is_dict negb lift str_concat].
    rewrite request_post, Hsvc, Herr, Hsucc.
    unfold lift, Response_json. rewrite Hjs. reflexivity.
  - unfold perform, list_documents, fmap, IO_fmap, mbind, IO_bind.
    destruct (is_None i); [discriminate|].
    destruct (py_str_total i) as [s Hs].
    destruct q as [[b | v] |]; try discriminate; rewrite Hs; cbn [lift]; cbv zeta;
      rewrite request_get, Hsvc, Herr, Hsucc;
      unfold lift, Response_json; rewrite Hjs; reflexivity.
  - unfold perform, get_document, fmap, IO_fmap, mbind, IO_bind.
    destruct (is_None i); [discriminate|]. destruct (is_None x); [discriminate|].
    destruct (py_str_total i) as [s ->]. destruct (py_str_total x) as [t ->]. cbn [lift].
    rewrite request_get, Hsvc, Herr, Hsucc.
    unfold lift, Response_json. rewrite Hjs. reflexivity.
Qed.

End Model.

(** * Closed instances *)

(** ** The record wrapper *)

Lemma get_string_outcomes_witness :
  let r := mkRecord Z (VDict {["nick" := VNone; "pages" := VInt 412]})
             (VStr "d1") (VStr "c1") 0 (VDict ∅) in
  Record_get_string plain_repr Z r "nick" true = Ok None /\
  Record_get_string plain_repr Z r "age" true = Ok None /\
  Record_get_string plain_repr Z r "pages" true = Ok (Some "412").
Proof.
  intros r.
  destruct (get_string_outcomes plain_repr Z r {["nick" := VNone; "pages" := VInt 412]}
              "nick" true eq_refl) as (_ & Hnull & _).
  destruct (get_string_outcomes plain_repr Z r {["nick" := VNone; "pages" := VInt 412]}
              "age" true eq_refl) as (Habsent & _).
  destruct (get_string_outcomes plain_repr Z r {["nick" := VNone; "pages" := VInt 412]}
              "pages" true eq_refl) as (_ & _ & _ & _ & _ & _ & Hint).
  repeat apply conj;
    [apply Hnull | apply Habsent | apply (Hint 412)]; reflexivity.
Defined.

(** C9 as stated fails on a payload whose [data] entry is null: the
    record is built, its fields are [None], and [get_string] raises
    [AttributeError] on the lookup, outside its [try] block, in both
    modes. *)
Lemma get_string_raises_on_null_data :
  exists r,
    Record_init Z epoch_seconds (VDict {["data" := VNone]}) = Ok r /\
    r_data Z r = VNone /\
    Record_get_string plain_repr Z r "title" false = Raise (Builtin BAttributeError) /\
    Record_get_string plain_repr Z r "title" true = Raise (Builtin BAttributeError).
Proof. eexists. repeat apply conj; reflexivity. Qed.

Lemma getitem_versus_get_witness :
  let r := mkRecord Z (VDict {["title" := VStr "Dune"]}) (VStr "d1") (VStr "c1") 0 (VDict ∅) in
  Record_getitem Z r "author" = Raise (KeyError "author") /\
  Record_get Z r "author" (VInt 7) = Ok (VInt 7).
Proof.
  intros r.
  apply (proj1 (getitem_versus_get Z r {["title" := VStr "Dune"]} "author" (VInt 7) eq_refl)).
  reflexivity.
Defined.

Lemma record_round_trip_witness :
  let d : gmap string value := {["title" := VStr "Dune"]} in
  let blob : gmap string value := <["id" := VStr "d1"]> {["data" := VDict d]} in
  exists r,
    Record_init Z epoch_seconds (VDict blob) = Ok r /\
    r_data Z r = VDict d /\
    forall key v, d !! key = Some v -> Record_get Z r key VNone = Ok v.
Proof.
  intros d blob.
  apply (record_round_trip Z epoch_seconds blob d 0 VNone); reflexivity.
Defined.

Lemma get_bool_coercion_witness :
  let d : gmap string value := {["active" := VStr "YES"; "copies" := VStr " 12 "]} in
  let r := mkRecord Z (VDict d) (VStr "d1") (VStr "c1") 0 (VDict ∅) in
  Record_get_bool plain_repr Z r "active" false = Ok (Some true) /\
  (plain_text " 12 " = true /\
   Record_get_bool plain_repr Z r "copies" true = Ok (Some true)).
Proof.
  intros d r.
  destruct (get_bool_coercion plain_repr Z r d "active" false eq_refl)
    as (_ & _ & _ & _ & _ & _ & _ & _ & Hyes & _).
  destruct (get_bool_coercion plain_repr Z r d "copies" true eq_refl)
    as (_ & _ & Hstr & _).
  destruct (Hstr " 12 " eq_refl) as (_ & _ & Hint).
  assert (Hplain : plain_text " 12 " = true) by (vm_compute; reflexivity).
  repeat apply conj;
    [apply Hyes; reflexivity | exact Hplain | exact (Hint Hplain eq_refl eq_refl)].
Defined.

(** C7 as the specification words it fails on a string with blanks around
    the word: the code strips them and answers [True], where a
    case-insensitive comparison of the stored string finds no word and
    the string is no number. *)
Lemma get_bool_strips_blanks :
  let r := mkRecord Z (VDict {["active" := VStr " yes "]}) (VStr "d1") (VStr "c1") 0 (VDict ∅) in
  let out := Record_get_bool plain_repr Z r "active" false in
  out = Ok (Some true) /\
  spec_getBool_string " yes " = None /\
  out <> Ok (spec_getBool_string " yes ").
Proof. repeat split. discriminate. Qed.

(** A stored null is answered with [None] in strict mode too. *)
Example get_bool_null_strict :
  let r := mkRecord Z (VDict {["active" := VNone]}) (VStr "d1") (VStr "c1") 0 (VDict ∅) in
  Record_get_bool plain_repr Z r "active" true = Ok None.
Proof. reflexivity. Qed.

(** [int(...)] truncates: the float 0.5 is answered with [False]. *)
Example get_bool_one_half :
  let r := mkRecord Z (VDict {["ratio" := VFloat (S754_finite false 1 (-1))]})
             (VStr "d1") (VStr "c1") 0 (VDict ∅) in
  Record_get_bool plain_repr Z r "ratio" false = Ok (Some false).
Proof. reflexivity. Qed.

(** "maybe" in both modes. *)
Example get_bool_maybe :
  let r := mkRecord Z (VDict {["active" := VStr "maybe"]}) (VStr "d1") (VStr "c1") 0 (VDict ∅) in
  Record_get_bool plain_repr Z r "active" false = Ok None /\
  Record_get_bool plain_repr Z r "active" true =
    Raise (TypeError "Value for 'active' is not bool-convertible: maybe").
Proof. split; reflexivity. Qed.

(** ** The client *)

(** C1 at its failing input: the service would answer 204, and is not
    asked. *)
Example delete_document_on_sample :
  delete_document plain_repr sample_base (always (mkResponse 204 "" None)) sample_client
    (VStr "books") (VStr "42") [] = (Raise invalid_method, []).
Proof. reflexivity. Qed.

Lemma unlisted_status_returns_None_witness :
  exists rq,
    perform plain_repr Z epoch_seconds sample_base string literal_query
      (always (mkResponse 404 "not found" None)) sample_client
      (GetDocument string (VStr "books") (VStr "42")) [] =
    (Ok (RetNone Z), ([] ++ [rq])%list).
Proof.
  apply (unlisted_status_returns_None plain_repr Z epoch_seconds sample_base string
           literal_query (always (mkResponse 404 "not found" None)) sample_client
           (GetDocument string (VStr "books") (VStr "42")) []
           (mkResponse 404 "not found" None));
    try reflexivity; cbn; lia.
Defined.

(** C3 as stated fails on 404: [get_document] returns [None], it raises
    nothing. *)
Lemma get_document_404_returns_None :
  let out :=
    get_document plain_repr Z epoch_seconds sample_base
      (always (mkResponse 404 "not found" None)) sample_client
      (VStr "books") (VStr "42") [] in
  fst out = Ok None /\
  (~ exists e, fst out = Raise e) /\
  length (snd out) = 1%nat.
Proof. repeat split. intros [e He]. discriminate He. Qed.

Lemma known_status_messages_witness :
  fst (perform plain_repr Z epoch_seconds sample_base string literal_query
         (always (mkResponse 400 "name taken" None)) sample_client
         (CreateCollection string (VStr "books") VNone) []) =
  Raise (CocobaseError "Invalid Request: name taken").
Proof.
  apply (proj1 (known_status_messages plain_repr Z epoch_seconds sample_base string
                  literal_query (always (mkResponse 400 "name taken" None)) sample_client
                  (CreateCollection string (VStr "books") VNone) []
                  (mkResponse 400 "name taken" None) eq_refl eq_refl (fun _ => eq_refl))).
  reflexivity.
Defined.

(** C6 as stated fails on 500: the error is a fixed text and the body of
    the response is not in it. *)
Lemma error_500_drops_body :
  let resp := mkResponse 500 "disk full" None in
  let out := fst (create_collection sample_base (always resp) sample_client
                    (VStr "books") VNone []) in
  out = Raise (CocobaseError "Internal Server Error") /\
  carries_body (CocobaseError "Internal Server Error") (text resp) = false.
Proof. split; reflexivity. Qed.

(** C5 as stated fails on the empty key: construction succeeds. *)
Lemma empty_key_accepted :
  CocoBaseClient_init "" None = Ok (mkClient "" None) /\
  ~ exists e, CocoBaseClient_init "" None = Raise e.
Proof. split; [reflexivity | intros [e He]; discriminate He]. Qed.

(** C4 at its failing input, with the answer of the service: the
    collection is created under a null name. *)
Example create_collection_without_name :
  create_collection sample_base (always (mkResponse 201 "{}" (Some (VDict ∅))))
    sample_client VNone VNone [] =
  (Ok (Some (VDict ∅)),
   [mkRequest HttpMethod_post "https://api.test/collections" [("x-api-key", "secret")]
      (Some (VDict {["name" := VNone]}))]).
Proof. reflexivity. Qed.

(** C2 at its failing input. *)
Example update_document_on_sample :
  update_document plain_repr Z epoch_seconds sample_base
    (always (mkResponse 200 "{}" (Some (VDict ∅)))) sample_client
    (VStr "books") (VStr "42") (VDict {["title" := VStr "Dune"]}) [] =
  (Raise invalid_method, []).
Proof. reflexivity. Qed.

(** * Closed instances of the further properties *)

Lemma setitem_then_read_witness :
  let r := mkRecord Z (VDict {["title" := VStr "Dune"]}) (VStr "d1") (VStr "c1") 0 (VDict ∅) in
  exists r',
    Record_setitem Z r "pages" (VInt 412) = Ok r' /\
    Record_getitem Z r' "pages" = Ok (VInt 412) /\
    Record_getitem Z r' "title" = Ok (VStr "Dune").
Proof.
  intros r.
  destruct (setitem_then_read Z r {["title" := VStr "Dune"]} "pages" (VInt 412) VNone eq_refl)
    as (r' & Hset & Hget & _ & Hother & _).
  exists r'. repeat split; try assumption.
  destruct (Hother "title" ltac:(discriminate)) as [-> _]. reflexivity.
Defined.

Lemma delitem_then_read_witness :
  let r := mkRecord Z (VDict {["title" := VStr "Dune"]}) (VStr "d1") (VStr "c1") 0 (VDict ∅) in
  Record_delitem Z r "pages" = Raise (KeyError "pages") /\
  exists r', Record_delitem Z r "title" = Ok r' /\
             Record_getitem Z r' "title" = Raise (KeyError "title").
Proof.
  intros r.
  destruct (delitem_then_read Z r {["title" := VStr "Dune"]} "pages" VNone eq_refl)
    as [Habsent _].
  destruct (delitem_then_read Z r {["title" := VStr "Dune"]} "title" VNone eq_refl)
    as [_ Hpresent].
  split; [apply Habsent; reflexivity|].
  destruct (Hpresent (VStr "Dune") eq_refl) as (r' & Hdel & Hget & _).
  exists r'. split; assumption.
Defined.

Lemma setitem_delitem_restores_witness :
  let r := mkRecord Z (VDict {["title" := VStr "Dune"]}) (VStr "d1") (VStr "c1") 0 (VDict ∅) in
  (r' ← Record_setitem Z r "pages" (VInt 412); Record_delitem Z r' "pages") = Ok r.
Proof.
  intros r.
  apply (proj1 (setitem_delitem_restores Z r {["title" := VStr "Dune"]} "pages"
                  (VInt 412) VNone eq_refl)).
  reflexivity.
Defined.

Lemma typed_read_after_write_witness :
  let r := mkRecord Z (VDict ∅) (VStr "d1") (VStr "c1") 0 (VDict ∅) in
  exists r',
    Record_setitem Z r "pages" (VInt 412) = Ok r' /\
    Record_get_int plain_repr Z r' "pages" true = Ok (Some 412).
Proof.
  intros r.
  apply (proj1 (proj2 (typed_read_after_write plain_repr Z r ∅ "pages" true eq_refl))).
Defined.

Lemma items_agree_with_getitem_witness :
  let r := mkRecord Z (VDict {["title" := VStr "Dune"]}) (VStr "d1") (VStr "c1") 0 (VDict ∅) in
  exists l,
    Record_items Z r = Ok l /\
    (("title", VStr "Dune") ∈ l <-> Record_getitem Z r "title" = Ok (VStr "Dune")).
Proof.
  intros r.
  destruct (items_agree_with_getitem Z r {["title" := VStr "Dune"]} eq_refl)
    as (l & Hl & _ & Hiff).
  exists l. split; [exact Hl | apply Hiff].
Defined.

Lemma getters_raise_only_TypeError_witness :
  let r := mkRecord Z (VDict {["title" := VStr "Dune"]}) (VStr "d1") (VStr "c1") 0 (VDict ∅) in
  getter_outcome false (Record_get_int plain_repr Z r "title" false) /\
  getter_outcome true (Record_get_datetime plain_repr Z epoch_seconds sample_isoformat
                         r "title" true).
Proof.
  intros r.
  destruct (getters_raise_only_TypeError plain_repr Z epoch_seconds sample_float
              sample_isoformat r {["title" := VStr "Dune"]} "title" false eq_refl
              (or_introl eq_refl))
    as (_ & Hint & _).
  destruct (getters_raise_only_TypeError plain_repr Z epoch_seconds sample_float
              sample_isoformat r {["title" := VStr "Dune"]} "title" true eq_refl
              (or_intror eq_refl))
    as (_ & _ & _ & _ & Hdt).
  split; assumption.
Defined.

Lemma strict_getters_on_missing_key_witness :
  let r := mkRecord Z (VDict {["title" := VStr "Dune"]}) (VStr "d1") (VStr "c1") 0 (VDict ∅) in
  Record_get_int plain_repr Z r "born" true = Ok None /\
  Record_get_datetime plain_repr Z epoch_seconds sample_isoformat r "born" true =
    Raise (TypeError "Value for 'born' is not datetime-convertible: None").
Proof.
  intros r.
  destruct (strict_getters_on_missing_key plain_repr Z epoch_seconds sample_float
              sample_isoformat r {["title" := VStr "Dune"]} "born" eq_refl
              (or_introl eq_refl))
    as (_ & Hint & _ & _ & Hdt & _).
  split; assumption.
Defined.


Lemma get_bool_agrees_with_get_int_witness :
  let r := mkRecord Z (VDict {["stock" := VStr " 1 "]}) (VStr "d1") (VStr "c1") 0 (VDict ∅) in
  Record_get_bool plain_repr Z r "stock" true = Ok (Some true).
Proof.
  intros r.
  apply (get_bool_agrees_with_get_int plain_repr Z r {["stock" := VStr " 1 "]} "stock"
           false true 1 eq_refl eq_refl).
Defined.

Lemma int_survives_its_text_witness :
  let r := mkRecord Z (VDict {["pages" := VInt (-412)]}) (VStr "d1") (VStr "c1") 0 (VDict ∅) in
  exists s r',
    Record_get_string plain_repr Z r "pages" false = Ok (Some s) /\
    Record_setitem Z r "text" (VStr s) = Ok r' /\
    Record_get_int plain_repr Z r' "text" false = Ok (Some (-412)).
Proof.
  intros r.
  assert (Hlim : printable_int (-412) = true) by (vm_compute; reflexivity).
  destruct (int_survives_its_text plain_repr Z r {["pages" := VInt (-412)]} "pages" "text"
              false (-412) eq_refl eq_refl Hlim)
    as (s & r' & H1 & H2 & H3 & _).
  exists s, r'. repeat split; assumption.
Defined.

Lemma result_only_on_success_witness :
  let resp := mkResponse 201 "null" (Some VNone) in
  let c := CreateCollection string (VStr "books") VNone in
  let rq0 := mkRequest HttpMethod_post "https://api.test/collections"
               [("x-api-key", "secret")] (Some (VDict {["name" := VStr "books"]})) in
  perform plain_repr Z epoch_seconds sample_base string literal_query (always resp)
    sample_client c [] = (Ok (RetNone Z), [rq0]) /\
  exists rq,
    [rq0] = ([] ++ [rq])%list /\
    (RetNone Z = RetNone Z <->
     is_success string c (status_code (always resp [] rq)) = false \/
     (returns_body string c = true /\ json_body (always resp [] rq) = Some VNone)).
Proof.
  intros resp c rq0.
  assert (Hrun : perform plain_repr Z epoch_seconds sample_base string literal_query
                   (always resp) sample_client c [] = (Ok (RetNone Z), [rq0]))
    by reflexivity.
  split; [exact Hrun|].
  exact (result_only_on_success plain_repr Z epoch_seconds sample_base string
           literal_query (always resp) sample_client c [] [rq0] (RetNone Z) Hrun).
Defined.

Lemma get_document_round_trip_witness :
  let d : gmap string value := {["title" := VStr "Dune"]} in
  let blob : gmap string value := <["created_at" := VInt 60]> {["data" := VDict d]} in
  exists r,
    fst (get_document plain_repr Z epoch_seconds sample_base
           (always (mkResponse 200 "{}" (Some (VDict blob)))) sample_client
           (VStr "books") (VStr "42") []) = Ok (Some r) /\
    Record_get Z r "title" VNone = Ok (VStr "Dune").
Proof.
  intros d blob.
  destruct (get_document_round_trip plain_repr Z epoch_seconds sample_base
              (always (mkResponse 200 "{}" (Some (VDict blob)))) sample_client
              "books" "42" [] blob d 60 VNone eq_refl eq_refl eq_refl eq_refl)
    as (r & Hrun & _ & Hget).
  exists r. split; [now rewrite Hrun | apply Hget; reflexivity].
Defined.

Lemma list_documents_keeps_order_witness :
  let doc (n : Z) : value := VDict {["id" := VInt n]} in
  exists r1 r2,
    fst (list_documents plain_repr Z epoch_seconds sample_base string literal_query
           (always (mkResponse 200 "[]" (Some (VList [doc 1; doc 2])))) sample_client
           (VStr "books") (Some (IsBuilder string "limit=2")) []) = Ok (Some [r1; r2]) /\
    r_id Z r1 = VInt 1 /\ r_id Z r2 = VInt 2.
Proof.
  intros doc.
  exists (mkRecord Z (VDict ∅) (VInt 1) (VStr "") 0 (VDict ∅)),
         (mkRecord Z (VDict ∅) (VInt 2) (VStr "") 0 (VDict ∅)).
  split; [|split; reflexivity].
  refine (f_equal fst
            (proj1 (list_documents_keeps_order plain_repr Z epoch_seconds sample_base string
                      literal_query
                      (always (mkResponse 200 "[]" (Some (VList [doc 1; doc 2]))))
                      sample_client "books" (Some "limit=2") [] [doc 1; doc 2]
                      eq_refl eq_refl)
               [mkRecord Z (VDict ∅) (VInt 1) (VStr "") 0 (VDict ∅);
                mkRecord Z (VDict ∅) (VInt 2) (VStr "") 0 (VDict ∅)] _)).
  repeat constructor.
Defined.


Lemma success_without_json_witness :
  fst (perform plain_repr Z epoch_seconds sample_base string literal_query
         (always (mkResponse 200 "<html>" None)) sample_client
         (GetDocument string (VStr "books") (VStr "42")) []) =
  Raise (Builtin BJSONDecodeError).
Proof.
  apply (success_without_json plain_repr Z epoch_seconds sample_base string literal_query
           (always (mkResponse 200 "<html>" None)) sample_client
           (GetDocument string (VStr "books") (VStr "42")) []
           (mkResponse 200 "<html>" None) eq_refl eq_refl (fun _ => eq_refl)
           eq_refl eq_refl).
Defined.

Lemma missing_identifier_fails_fast_witness :
  exists msg,
    perform plain_repr Z epoch_seconds sample_base string literal_query
      (always (mkResponse 200 "{}" (Some (VDict ∅)))) sample_client
      (GetDocument string (VStr "books") VNone) [] = (Raise (CocobaseError msg), []).
Proof.
  apply (missing_identifier_fails_fast plain_repr Z epoch_seconds sample_base string
           literal_query (always (mkResponse 200 "{}" (Some (VDict ∅)))) sample_client
           (GetDocument string (VStr "books") VNone) [] eq_refl eq_refl).
Defined.
